(** * FilamentScene.web.tsx: readiness gate, context snapshot and render output

    A shallow embedding of the [FilamentScene] component.  One render pass of
    the component is a function from its props, the handle returned by
    [useEngine] and the state kept by its hooks to the rendered tree and the
    new hook state; a commit then attaches the canvas ref and runs the
    effects of the nine [useDisposableResource] calls. *)

From Stdlib Require Import List String Bool Arith Lia Permutation.
Import ListNotations.
Set Warnings "-register-all".
Open Scope string_scope.
Open Scope list_scope.

(** ** JavaScript values *)

(** Identity of an object that lives outside the component (a native engine
    object, the worklet context, a DOM node). *)
Definition Ref := nat.

(** [T | undefined]: the value of a resource constant during a render.
    [None] is the nullish case tested by [== null]. *)
Definition Handle := option Ref.

Definition is_null (h : Handle) : bool :=
  match h with None => true | Some _ => false end.

(** [Object.is] on handles. *)
Definition Handle_same (a b : Handle) : bool :=
  match a, b with
  | None, None => true
  | Some x, Some y => Nat.eqb x y
  | _, _ => false
  end.

(** The frame-rate policy the caller passes; React compares it with
    [Object.is], so a value of this type stands for one JavaScript value up to
    [Object.is]. *)
Definition FrameRateOptions := nat.

Definition FrameRateOptions_same (a b : option FrameRateOptions) : bool :=
  match a, b with
  | None, None => true
  | Some x, Some y => Nat.eqb x y
  | _, _ => false
  end.

(** An object literal evaluated by the component: the address it was
    allocated at (its identity) and its own properties in source order. *)
Record FilamentContextType := {
  ctx_addr : nat;
  ctx_props : list (string * Ref)
}.

(** [{ frameRateOptions }] *)
Record RendererProps := {
  rp_addr : nat;
  rp_frameRateOptions : option FrameRateOptions
}.

Fixpoint own_property (k : string) (o : list (string * Ref)) : option Ref :=
  match o with
  | [] => None
  | (k', v) :: o' => if String.eqb k k' then Some v else own_property k o'
  end.

(** ** The ten handles *)

(** The nine constants bound to a [useDisposableResource] call, in the order
    of the calls. *)
Inductive Resource :=
| transformManager
| renderableManager
| scene
| lightManager
| view
| camera
| renderer
| nameComponentManager
| choreographer.

Inductive HandleName :=
| engine
| res (r : Resource).

Coercion res : Resource >-> HandleName.

Definition Resource_eqb (a b : Resource) : bool :=
  match a, b with
  | transformManager, transformManager
  | renderableManager, renderableManager
  | scene, scene
  | lightManager, lightManager
  | view, view
  | camera, camera
  | renderer, renderer
  | nameComponentManager, nameComponentManager
  | choreographer, choreographer => true
  | _, _ => false
  end.

Definition HandleName_eqb (a b : HandleName) : bool :=
  match a, b with
  | engine, engine => true
  | res x, res y => Resource_eqb x y
  | _, _ => false
  end.

Definition all_resources : list Resource :=
  [transformManager; renderableManager; scene; lightManager; view; camera;
   renderer; nameComponentManager; choreographer].

(** The eight resources created from the engine (lines 62-81). *)
Definition engine_resources : list Resource :=
  [transformManager; renderableManager; scene; lightManager; view; camera;
   renderer; nameComponentManager].

(** The dependency array of the [value] memo (lines 121-132). *)
Definition value_deps_names : list HandleName :=
  [res transformManager; res renderableManager; res scene; res lightManager;
   res view; res camera; res renderer; res nameComponentManager;
   res choreographer; engine].

(** The values of the ten constants during one render. *)
Definition Handles := HandleName -> Handle.

Definition all_set (h : Handles) : Prop := forall n, h n <> None.

(** ** Rendered tree *)

(** An element created by the caller ([fallback], [children]); opaque. *)
Definition Element := nat.

(** The object returned by [React.useRef]; the component has one. *)
Inductive RefObject := canvasRef.

Record ViewProps := {
  frameRateOptions : option FrameRateOptions;
  fallback : option Element;
  otherProps : nat
}.

(** [{ children, ...viewProps }] *)
Record FilamentProviderProps := {
  children : Element;
  viewProps : ViewProps
}.

Inductive ReactNode :=
| null
| supplied (e : Element)
| FilamentContext_Provider (value : FilamentContextType) (kids : list ReactNode)
| Configurator (rendererProps : RendererProps) (viewProps : ViewProps)
               (kids : list ReactNode)
| RenderContextProvider (kids : list ReactNode)
| canvas (ref : RefObject).

(** [fallback ?? null] *)
Definition or_null (e : option Element) : ReactNode :=
  match e with Some x => supplied x | None => null end.

(** Does the tree contain the [<canvas>] element? *)
Fixpoint has_canvas (n : ReactNode) : bool :=
  match n with
  | null => false
  | supplied _ => false
  | FilamentContext_Provider _ kids => existsb has_canvas kids
  | Configurator _ _ kids => existsb has_canvas kids
  | RenderContextProvider kids => existsb has_canvas kids
  | canvas _ => true
  end.

(** Does the tree contain the caller's element [e]? *)
Fixpoint has_supplied (e : Element) (n : ReactNode) : bool :=
  match n with
  | null => false
  | supplied x => Nat.eqb x e
  | FilamentContext_Provider _ kids => existsb (has_supplied e) kids
  | Configurator _ _ kids => existsb (has_supplied e) kids
  | RenderContextProvider kids => existsb (has_supplied e) kids
  | canvas _ => false
  end.

(** Is a [RenderContextProvider] mounted in the tree? *)
Fixpoint has_render_provider (n : ReactNode) : bool :=
  match n with
  | null => false
  | supplied _ => false
  | FilamentContext_Provider _ kids => existsb has_render_provider kids
  | Configurator _ _ kids => existsb has_render_provider kids
  | RenderContextProvider _ => true
  | canvas _ => false
  end.

(** The value a descendant reads from [FilamentContext]: the value of the
    provider at the root of the output, if there is one. *)
Definition published (n : ReactNode) : option FilamentContextType :=
  match n with
  | FilamentContext_Provider v _ => Some v
  | _ => None
  end.

(** The props the [Configurator] element receives. *)
Definition configured (n : ReactNode) : option (RendererProps * ViewProps) :=
  match n with
  | FilamentContext_Provider _ [Configurator rp vp _] => Some (rp, vp)
  | _ => None
  end.

(** ** React.useMemo *)

(** [areHookInputsEqual]: element-wise [Object.is]. *)
Fixpoint areHookInputsEqual {D : Type} (same : D -> D -> bool)
         (next prev : list D) : bool :=
  match next, prev with
  | [], [] => true
  | a :: next', b :: prev' => same a b && areHookInputsEqual same next' prev'
  | _, _ => false
  end.

(** A memo cell holds the dependencies and the value of the last
    computation.  The factory allocates from [heap], the next free address. *)
Definition useMemo {D V : Type} (same : D -> D -> bool)
           (factory : nat -> V * nat) (deps : list D)
           (cell : option (list D * V)) (heap : nat)
  : V * option (list D * V) * nat :=
  match cell with
  | Some (prev, v) =>
      if areHookInputsEqual same deps prev then (v, cell, heap)
      else let '(v', heap') := factory heap in (v', Some (deps, v'), heap')
  | None =>
      let '(v', heap') := factory heap in (v', Some (deps, v'), heap')
  end.

Notation "x <- e ;; k" :=
  (match e with Some x => k | None => None end)
    (at level 61, e at next level, right associativity).

(** ** Hook state of one mounted component *)

(** The state behind one [useDisposableResource] call. *)
Record Slot := {
  (* the state cell the hook returns *)
  resource : Handle;
  (* inputs of the live effect; None before the first commit *)
  effect_deps : option (list Handle);
  (* number of the acquisition issued by the live effect *)
  live : nat
}.

(** What an initializer evaluates when its effect runs. *)
Inductive Initialize :=
(* () => Promise.resolve(engine?.createX()) *)
| from_engine (e : Handle)
(* useWorklet(FilamentWorkletContext,
              () => FilamentProxy.createChoreographer()) *)
| in_worklet (context : Ref).

(** Calls made on the native side, oldest first. *)
Inductive Effect :=
| Acquire (r : Resource) (gen : nat) (init : Initialize)
| Release (r : Resource) (a : Ref).

(** How the promise of an acquisition ends, when it does. *)
Inductive Outcome :=
| Resolved (a : Handle)
| Rejected.

Record Fiber := {
  canvasRef_current : option Ref;
  slot : Resource -> Slot;
  value_memo : option (list Handle * option FilamentContextType);
  rendererProps_memo : option (list (option FrameRateOptions) * RendererProps);
  heap : nat;                       (* next free address for object literals *)
  dom : nat;                        (* next DOM node *)
  log : list Effect;
  settled : list (Resource * nat)   (* promises that have settled *)
}.

(** [useEngine({ canvas, context })] *)
Record EngineProps := {
  canvas_prop : option Ref;
  context_prop : Ref
}.

Record Rendered := {
  output : ReactNode;
  useEngine_call : EngineProps
}.

Definition unmounted_slot : Slot :=
  {| resource := None; effect_deps := None; live := 0 |}.

(** The hook state at the first render. *)
Definition mount : Fiber :=
  {| canvasRef_current := None;
     slot := fun _ => unmounted_slot;
     value_memo := None;
     rendererProps_memo := None;
     heap := 0; dom := 0; log := []; settled := [] |}.

Definition with_slots (f : Resource -> Slot) (fb : Fiber) : Fiber :=
  {| canvasRef_current := canvasRef_current fb;
     slot := f;
     value_memo := value_memo fb;
     rendererProps_memo := rendererProps_memo fb;
     heap := heap fb; dom := dom fb; log := log fb; settled := settled fb |}.

Definition with_log (l : list Effect) (fb : Fiber) : Fiber :=
  {| canvasRef_current := canvasRef_current fb;
     slot := slot fb;
     value_memo := value_memo fb;
     rendererProps_memo := rendererProps_memo fb;
     heap := heap fb; dom := dom fb; log := l; settled := settled fb |}.

Definition with_settled (l : list (Resource * nat)) (fb : Fiber) : Fiber :=
  {| canvasRef_current := canvasRef_current fb;
     slot := slot fb;
     value_memo := value_memo fb;
     rendererProps_memo := rendererProps_memo fb;
     heap := heap fb; dom := dom fb; log := log fb; settled := l |}.

Definition update (f : Resource -> Slot) (r : Resource) (s : Slot)
  : Resource -> Slot :=
  fun r' => if Resource_eqb r r' then s else f r'.

(** The ten constants as a render sees them: [engine] is what [useEngine]
    returned, the others are the state of their hook. *)
Definition handles_of (useEngine : Handle) (fb : Fiber) : Handles :=
  fun n =>
    match n with
    | engine => useEngine
    | res r => resource (slot fb r)
    end.

(** What the module imports from ./web/FilamentProxy: the worklet context,
    a module-level constant. *)
Class Imports := {
  FilamentWorkletContext : Ref
}.

Section Scene.

Context {imports : Imports}.

(** ** The [value] memo (lines 92-132) *)

(** The body of the factory: [undefined] if one of the ten is nullish (tested
    in the order of lines 94-103), the object literal of lines 108-120
    otherwise. *)
Definition value_object (h : Handles) : option (list (string * Ref)) :=
  tm <- h transformManager ;;
  rm <- h renderableManager ;;
  sc <- h scene ;;
  lm <- h lightManager ;;
  vw <- h view ;;
  cm <- h camera ;;
  rd <- h renderer ;;
  nm <- h nameComponentManager ;;
  ch <- h choreographer ;;
  en <- h engine ;;
  Some [("engine", en);
        ("transformManager", tm);
        ("renderableManager", rm);
        ("scene", sc);
        ("lightManager", lm);
        ("view", vw);
        ("camera", cm);
        ("renderer", rd);
        ("nameComponentManager", nm);
        ("workletContext", FilamentWorkletContext);
        ("choreographer", ch)].

Definition value_factory (h : Handles) (a : nat)
  : option FilamentContextType * nat :=
  match value_object h with
  | None => (None, a)
  | Some o => (Some {| ctx_addr := a; ctx_props := o |}, S a)
  end.

(** [() => ({ frameRateOptions })] *)
Definition rendererProps_factory (f : option FrameRateOptions) (a : nat)
  : RendererProps * nat :=
  ({| rp_addr := a; rp_frameRateOptions := f |}, S a).

(** The readiness gate: [value != null] for the current handles. *)
Definition gate (h : Handles) : bool :=
  match value_object h with Some _ => true | None => false end.

(** ** One render pass (lines 55-148) *)

Definition FilamentScene (props : FilamentProviderProps) (useEngine : Handle)
           (fb : Fiber) : Rendered * Fiber :=
  let vp := viewProps props in
  let engine_call :=
    {| canvas_prop := canvasRef_current fb;
       context_prop := FilamentWorkletContext |} in
  let h := handles_of useEngine fb in
  let '(value, vcell, heap1) :=
    useMemo Handle_same (value_factory h) (map h value_deps_names)
            (value_memo fb) (heap fb) in
  let '(rendererProps, rcell, heap2) :=
    useMemo FrameRateOptions_same
            (rendererProps_factory (frameRateOptions vp))
            [frameRateOptions vp] (rendererProps_memo fb) heap1 in
  let out :=
    match value with
    | None => or_null (fallback vp)
    | Some v =>
        FilamentContext_Provider v
          [Configurator rendererProps vp
             [RenderContextProvider
                [canvas canvasRef; supplied (children props)]]]
    end in
  ({| output := out; useEngine_call := engine_call |},
   {| canvasRef_current := canvasRef_current fb;
      slot := slot fb;
      value_memo := vcell;
      rendererProps_memo := rcell;
      heap := heap2; dom := dom fb; log := log fb; settled := settled fb |}).

(** ** Commit: the canvas ref *)

(** React attaches [canvasRef] when an output with the [<canvas>] is
    committed (a new DOM node if none is attached) and detaches it when an
    output without it is committed. *)
Definition commit_ref (out : ReactNode) (fb : Fiber) : Fiber :=
  let '(cur, d) :=
    if has_canvas out then
      match canvasRef_current fb with
      | Some c => (Some c, dom fb)
      | None => (Some (dom fb), S (dom fb))
      end
    else (None, dom fb) in
  {| canvasRef_current := cur;
     slot := slot fb;
     value_memo := value_memo fb;
     rendererProps_memo := rendererProps_memo fb;
     heap := heap fb; dom := d; log := log fb; settled := settled fb |}.

(** ** Commit: the nine [useDisposableResource] calls (lines 62-89) *)

(** The two arguments of the call for resource [r] in a render where
    [useEngine] returned [e]: the initializer and the dependency list, which
    the choreographer call (lines 84-89) does not pass. *)
Definition call_site (e : Handle) (r : Resource)
  : Initialize * option (list Handle) :=
  match r with
  | choreographer => (in_worklet FilamentWorkletContext, None)
  | _ => (from_engine e, Some [e])
  end.

(** [useDisposableResource] is imported from react-native-filament and is
    not among the sources.  The definitions below give it the behaviour that
    sections 4.1 and 5 of the specification describe: a call issues one
    acquisition when the component mounts and one more each time a
    dependency it was given changes identity; before the replacement is
    issued the handle it holds is released and its state is reset to unset;
    a result that arrives for an acquisition that has been replaced is
    released and never becomes the handle; a nullish result, a rejection and
    a promise that never settles leave the handle unset. *)

(** Modelled from the spec: the dependencies [useDisposableResource]
    watches.  A call without dependency list hands nothing of the render to
    the hook, so it has no dependency that can change. *)
Definition effect_inputs (deps : option (list Handle)) : list Handle :=
  match deps with Some d => d | None => [] end.

(** Modelled from the spec: does the effect of a [useDisposableResource]
    call run in this commit?  On mount, and when a dependency changed. *)
Definition stale (s : Slot) (inputs : list Handle) : bool :=
  match effect_deps s with
  | None => true
  | Some prev => negb (areHookInputsEqual Handle_same inputs prev)
  end.

Definition reruns (e : Handle) (fb : Fiber) (r : Resource) : bool :=
  stale (slot fb r) (effect_inputs (snd (call_site e r))).

(** Modelled from the spec: the clean-up [useDisposableResource] runs for
    a replaced effect releases the handle it holds. *)
Definition released (r : Resource) (s : Slot) : list Effect :=
  match resource s with
  | Some a => [Release r a]
  | None => []
  end.

(** Modelled from the spec: the state of a [useDisposableResource] call
    after clean-up and re-run, unset and waiting for the next acquisition. *)
Definition reissued (inputs : list Handle) (s : Slot) : Slot :=
  {| resource := None;
     effect_deps := Some inputs;
     live := S (live s) |}.

(** Modelled from the spec: the effects of the nine [useDisposableResource]
    calls in one commit.  As React does, all clean-ups of a commit run before
    its effects. *)
Definition commit_effects (e : Handle) (fb : Fiber) : Fiber :=
  let todo := filter (reruns e fb) all_resources in
  let releases := flat_map (fun r => released r (slot fb r)) todo in
  let acquires :=
    map (fun r => Acquire r (S (live (slot fb r))) (fst (call_site e r)))
        todo in
  with_log (log fb ++ releases ++ acquires)
    (with_slots
       (fun r =>
          if reruns e fb r
          then reissued (effect_inputs (snd (call_site e r))) (slot fb r)
          else slot fb r)
       fb).

(** The initializer of acquisition [gen] of resource [r], if it was issued. *)
Fixpoint issued (r : Resource) (gen : nat) (l : list Effect)
  : option Initialize :=
  match l with
  | [] => None
  | Acquire r' gen' init :: l' =>
      if Resource_eqb r r' && Nat.eqb gen gen' then Some init
      else issued r gen l'
  | Release _ _ :: l' => issued r gen l'
  end.

(** The value the then-callback receives, if it runs with a non-nullish
    value: [engine?.createX()] is [undefined] when the engine is. *)
Definition result_of (init : Initialize) (o : Outcome) : Handle :=
  match o with
  | Rejected => None
  | Resolved a =>
      match init with
      | from_engine None => None
      | _ => a
      end
  end.

Definition was_settled (r : Resource) (gen : nat)
           (l : list (Resource * nat)) : bool :=
  existsb (fun p => Resource_eqb r (fst p) && Nat.eqb gen (snd p)) l.

(** Modelled from the spec: the then-callback of [useDisposableResource].
    The promise of acquisition [gen] of resource [r] settles with [o]; a
    promise settles once. *)
Definition settle (r : Resource) (gen : nat) (o : Outcome) (fb : Fiber)
  : Fiber :=
  if was_settled r gen (settled fb) then fb
  else
    match issued r gen (log fb) with
    | None => fb
    | Some init =>
        let fb' := with_settled ((r, gen) :: settled fb) fb in
        match result_of init o with
        | None => fb'
        | Some a =>
            if Nat.eqb gen (live (slot fb r))
            then with_slots
                   (update (slot fb) r
                      {| resource := Some a;
                         effect_deps := effect_deps (slot fb r);
                         live := live (slot fb r) |})
                   fb'
            else with_log (log fb ++ [Release r a]) fb'
        end
    end.

(** ** Life of a mounted component *)

Inductive Event :=
| Render (props : FilamentProviderProps) (useEngine : Handle)
| Settle (r : Resource) (gen : nat) (o : Outcome).

(** A render pass followed by its commit. *)
Definition render_commit (props : FilamentProviderProps) (useEngine : Handle)
           (fb : Fiber) : Fiber :=
  let '(r, fb1) := FilamentScene props useEngine fb in
  commit_effects useEngine (commit_ref (output r) fb1).

Definition step (fb : Fiber) (ev : Event) : Fiber :=
  match ev with
  | Render props useEngine => render_commit props useEngine fb
  | Settle r gen o => settle r gen o fb
  end.

Definition run (evs : list Event) (fb : Fiber) : Fiber :=
  fold_left step evs fb.

(** What the render pass in state [fb] returns. *)
Definition rendered (props : FilamentProviderProps) (useEngine : Handle)
           (fb : Fiber) : Rendered :=
  fst (FilamentScene props useEngine fb).

(** ** Handles becoming set *)

(** A pending handle settles: the constant [fst s] now holds [snd s]. *)
Definition resolve (h : Handles) (s : HandleName * Ref) : Handles :=
  fun n => if HandleName_eqb (fst s) n then Some (snd s) else h n.

(** Handles settle one after the other, in the order of the list. *)
Definition resolve_all (l : list (HandleName * Ref)) (h : Handles) : Handles :=
  fold_left resolve l h.

(** The property each constant is stored under in the object literal of
    lines 108-120. *)
Definition property (n : HandleName) : string :=
  match n with
  | engine => "engine"
  | res transformManager => "transformManager"
  | res renderableManager => "renderableManager"
  | res scene => "scene"
  | res lightManager => "lightManager"
  | res view => "view"
  | res camera => "camera"
  | res renderer => "renderer"
  | res nameComponentManager => "nameComponentManager"
  | res choreographer => "choreographer"
  end.

(** ** Histories *)

Definition is_settle (ev : Event) : Prop :=
  match ev with
  | Settle _ _ _ => True
  | Render _ _ => False
  end.

(** The resource a native call belongs to. *)
Definition effect_resource (x : Effect) : Resource :=
  match x with
  | Acquire r _ _ => r
  | Release r _ => r
  end.


(** The effects that are live were run by a commit of a render in which
    [useEngine] returned [e]. *)
Definition committed (e : Handle) (fb : Fiber) : Prop :=
  forall r, effect_deps (slot fb r)
            = Some (effect_inputs (snd (call_site e r))).

(** Every snapshot in the [value] cell is the one of [cell0] or was
    allocated at [n0] or later. *)
Definition not_older (n0 : nat)
           (cell0 : option (list Handle * option FilamentContextType))
           (fb : Fiber) : Prop :=
  n0 <= heap fb /\
  (value_memo fb = cell0 \/
   forall deps c, value_memo fb = Some (deps, Some c) -> n0 <= ctx_addr c).

(** ** Coherence of the hook state *)

(** A cell holds what its factory computes from the dependencies it holds,
    at an address that has been allocated. *)
Definition memo_ok (fb : Fiber) : Prop :=
  match value_memo fb with
  | None => True
  | Some (deps, v) =>
      (exists h, deps = map h value_deps_names /\
                 option_map ctx_props v = value_object h) /\
      (forall c, v = Some c -> ctx_addr c < heap fb)
  end /\
  match rendererProps_memo fb with
  | None => True
  | Some (deps, rp) =>
      deps = [rp_frameRateOptions rp] /\ rp_addr rp < heap fb
  end.

(** Commits and settlements leave the memo cells and the heap alone. *)
Definition same_memos (fb fb' : Fiber) : Prop :=
  value_memo fb' = value_memo fb /\
  rendererProps_memo fb' = rendererProps_memo fb /\
  heap fb' = heap fb.

(** The tree of the ready branch (lines 138-147). *)
Definition ready_tree (props : FilamentProviderProps)
           (v : FilamentContextType) (rp : RendererProps) : ReactNode :=
  FilamentContext_Provider v
    [Configurator rp (viewProps props)
       [RenderContextProvider [canvas canvasRef; supplied (children props)]]].

(** The result of a render pass in a coherent state: [v] is the value of
    the [value] memo and [rp] the value of the [rendererProps] memo. *)
Record RenderSpec (props : FilamentProviderProps) (useEngine : Handle)
       (fb : Fiber) (v : option FilamentContextType) (rp : RendererProps)
       (hp : nat) : Prop := {
  rs_eq :
    FilamentScene props useEngine fb =
      ({| output :=
            match v with
            | None => or_null (fallback (viewProps props))
            | Some c => ready_tree props c rp
            end;
          useEngine_call :=
            {| canvas_prop := canvasRef_current fb;
               context_prop := FilamentWorkletContext |} |},
       {| canvasRef_current := canvasRef_current fb;
          slot := slot fb;
          value_memo :=
            Some (map (handles_of useEngine fb) value_deps_names, v);
          rendererProps_memo :=
            Some ([frameRateOptions (viewProps props)], rp);
          heap := hp; dom := dom fb; log := log fb;
          settled := settled fb |});
  rs_value : option_map ctx_props v = value_object (handles_of useEngine fb);
  rs_rp : rp_frameRateOptions rp = frameRateOptions (viewProps props);
  rs_heap : heap fb <= hp;
  rs_value_addr : forall c, v = Some c -> ctx_addr c < hp;
  rs_rp_addr : rp_addr rp < hp;
  rs_value_hit :
    forall v0,
      value_memo fb =
        Some (map (handles_of useEngine fb) value_deps_names, v0) ->
      v = v0;
  rs_value_miss :
    (forall v0,
        value_memo fb <>
          Some (map (handles_of useEngine fb) value_deps_names, v0)) ->
    forall c, v = Some c -> heap fb <= ctx_addr c;
  rs_rp_hit :
    forall rp0,
      rendererProps_memo fb =
        Some ([frameRateOptions (viewProps props)], rp0) ->
      rp = rp0;
  rs_rp_miss :
    (forall rp0,
        rendererProps_memo fb <>
          Some ([frameRateOptions (viewProps props)], rp0)) ->
    heap fb <= rp_addr rp
}.

(** Once the component is mounted the choreographer effect never runs
    again. *)
Definition choreographer_mounted (fb : Fiber) : Prop :=
  effect_deps (slot fb choreographer) = Some [].

(** ** Identity of what the component creates *)

(** Every [rendererProps] object in the memo cell is the one of [cell0] or
    was allocated at [n0] or later. *)
Definition rp_not_older (n0 : nat)
           (cell0 : option (list (option FrameRateOptions) * RendererProps))
           (fb : Fiber) : Prop :=
  n0 <= heap fb /\
  (rendererProps_memo fb = cell0 \/
   forall deps rp, rendererProps_memo fb = Some (deps, rp) -> n0 <= rp_addr rp).

(** The DOM node attached to [canvasRef] is one that was created. *)
Definition ref_ok (fb : Fiber) : Prop :=
  forall c, canvasRef_current fb = Some c -> c < dom fb.

(** ** Where a handle comes from *)

(** The acquisition the call for [r] holds the result of, or waits for, is
    the last one issued for [r]; it was issued by the live effect, with the
    engine that effect depends on; and a handle is held only if that
    initializer can give one. *)
Definition provenance (fb : Fiber) (r : Resource) : Prop :=
  (forall g init, In (Acquire r g init) (log fb) -> g <= live (slot fb r)) /\
  match effect_deps (slot fb r) with
  | None =>
      resource (slot fb r) = None /\ forall g, issued r g (log fb) = None
  | Some inputs =>
      exists e,
        inputs = effect_inputs (snd (call_site e r)) /\
        issued r (live (slot fb r)) (log fb) = Some (fst (call_site e r)) /\
        (resource (slot fb r) <> None ->
         fst (call_site e r) <> from_engine None)
  end.

(** ** Acquisitions that hand over their handle *)

(** The acquisitions that are live in [fb] for the resources of [l] hand
    over the handles [a], in the order of [l]. *)
Definition resettle (a : Resource -> Ref) (fb : Fiber) (l : list Resource)
  : list Event :=
  map (fun r => Settle r (live (slot fb r)) (Resolved (Some (a r)))) l.

(** A promise that has settled belongs to an acquisition that was issued. *)
Definition settled_ok (fb : Fiber) : Prop :=
  forall r g, was_settled r g (settled fb) = true -> g <= live (slot fb r).

(** ** Failures the caller gets to see *)






End Scene.

(** ** A concrete life of the component *)

Definition demo_imports : Imports := {| FilamentWorkletContext := 99 |}.

Definition demo_props (f : option FrameRateOptions) (fb : option Element)
  : FilamentProviderProps :=
  {| children := 7;
     viewProps :=
       {| frameRateOptions := f; fallback := fb; otherProps := 0 |} |}.

(** Mount while [useEngine] is pending, then a render with the engine. *)
Definition demo_mount : list Event :=
  [Render (demo_props None (Some 5)) None;
   Render (demo_props None (Some 5)) (Some 100)].

(** The acquisitions issued with engine 100 and the choreographer
    acquisition hand over their handles. *)
Definition demo_settle : list Event :=
  [Settle choreographer 1 (Resolved (Some 50));
   Settle nameComponentManager 2 (Resolved (Some 17));
   Settle renderer 2 (Resolved (Some 16));
   Settle camera 2 (Resolved (Some 15));
   Settle view 2 (Resolved (Some 14));
   Settle lightManager 2 (Resolved (Some 13));
   Settle scene 2 (Resolved (Some 12));
   Settle renderableManager 2 (Resolved (Some 11));
   Settle transformManager 2 (Resolved (Some 10))].

(** All nine hooks hold a handle; the next render with engine 100 is the
    first with an open gate. *)
Definition demo_settled : Fiber :=
  run (imports := demo_imports) (demo_mount ++ demo_settle) mount.

(** The state after that render was committed. *)
Definition demo_ready : Fiber :=
  render_commit (imports := demo_imports) (demo_props None (Some 5)) (Some 100)
                demo_settled.

(** Only the transform manager has settled. *)
Definition demo_partial : Fiber :=
  run (imports := demo_imports)
      (demo_mount ++ [Settle transformManager 2 (Resolved (Some 10))]) mount.

(** The snapshot published by the first render with an open gate. *)
Definition demo_snapshot : FilamentContextType :=
  {| ctx_addr := 1;
     ctx_props :=
       [("engine", 100); ("transformManager", 10); ("renderableManager", 11);
        ("scene", 12); ("lightManager", 13); ("view", 14); ("camera", 15);
        ("renderer", 16); ("nameComponentManager", 17);
        ("workletContext", 99); ("choreographer", 50)] |}.

(** The engine has changed to 101 and the eight handles were reset. *)
Definition demo_reset : Fiber :=
  render_commit (imports := demo_imports) (demo_props None (Some 5))
                (Some 101) demo_ready.

(** The acquisitions issued with engine 101 hand over their handles. *)
Definition demo_settle_again : list Event :=
  [Settle transformManager 3 (Resolved (Some 20));
   Settle renderableManager 3 (Resolved (Some 21));
   Settle scene 3 (Resolved (Some 22));
   Settle lightManager 3 (Resolved (Some 23));
   Settle view 3 (Resolved (Some 24));
   Settle camera 3 (Resolved (Some 25));
   Settle renderer 3 (Resolved (Some 26));
   Settle nameComponentManager 3 (Resolved (Some 27))].

(** The handles engine 101 creates. *)
Definition demo_new_handles (r : Resource) : Ref :=
  match r with
  | transformManager => 20
  | renderableManager => 21
  | scene => 22
  | lightManager => 23
  | view => 24
  | camera => 25
  | renderer => 26
  | nameComponentManager => 27
  | choreographer => 50
  end.

(** The snapshot published by the render that first sees engine 101. *)
Definition demo_mixed : FilamentContextType :=
  {| ctx_addr := 2;
     ctx_props :=
       [("engine", 101); ("transformManager", 10); ("renderableManager", 11);
        ("scene", 12); ("lightManager", 13); ("view", 14); ("camera", 15);
        ("renderer", 16); ("nameComponentManager", 17);
        ("workletContext", 99); ("choreographer", 50)] |}.

(** A frame-rate object as the caller builds it: its identity, which is
    what the component sees of it, and what it holds. *)
Record FrameRateObject := {
  fro_identity : FrameRateOptions;
  fro_interval : nat
}.

(** [{ interval: 2 }], evaluated twice. *)
Definition demo_rate_a : FrameRateObject :=
  {| fro_identity := 60; fro_interval := 2 |}.

Definition demo_rate_b : FrameRateObject :=
  {| fro_identity := 61; fro_interval := 2 |}.

Section Properties.

Context {imports : Imports}.

(** ** Basic facts *)

Lemma Handle_same_eq (a b : Handle) : Handle_same a b = true <-> a = b.
Proof.
  destruct a as [x|], b as [y|]; simpl; split; intros H;
    try discriminate; try reflexivity.
  - apply Nat.eqb_eq in H. now subst.
  - injection H as ->. apply Nat.eqb_refl.
Qed.

Lemma FrameRateOptions_same_eq (a b : option FrameRateOptions) :
  FrameRateOptions_same a b = true <-> a = b.
Proof. exact (Handle_same_eq a b). Qed.

Lemma areHookInputsEqual_eq {D : Type} (same : D -> D -> bool)
      (Hsame : forall a b, same a b = true <-> a = b) (l1 l2 : list D) :
  areHookInputsEqual same l1 l2 = true <-> l1 = l2.
Proof.
  revert l2. induction l1 as [|a l1 IH]; intros [|b l2]; simpl;
    try (split; [discriminate | congruence]); try tauto.
  rewrite andb_true_iff, Hsame, IH. split.
  - intros [-> ->]. reflexivity.
  - intros H. injection H as -> ->. auto.
Qed.

Lemma Resource_eqb_eq (a b : Resource) : Resource_eqb a b = true <-> a = b.
Proof. destruct a, b; simpl; split; intros H; congruence. Qed.

Lemma HandleName_eqb_eq (a b : HandleName) :
  HandleName_eqb a b = true <-> a = b.
Proof.
  destruct a as [|x], b as [|y]; simpl; try (split; congruence).
  rewrite Resource_eqb_eq. split; congruence.
Qed.

(** The factory returns [undefined] exactly when one of the ten is unset. *)
Lemma value_object_None (h : Handles) :
  value_object h = None <-> exists n, h n = None.
Proof.
  unfold value_object. split.
  - intros H.
    repeat match type of H with
           | context [match h ?n with _ => _ end] =>
               destruct (h n) eqn:?; [ | eexists; eassumption ]
           end.
    discriminate.
  - intros [n Hn].
    repeat match goal with
           | |- context [match h ?m with _ => _ end] =>
               destruct (h m) eqn:?
           end; try reflexivity.
    destruct n as [|[]]; congruence.
Qed.

Lemma value_object_Some (h : Handles) :
  (exists o, value_object h = Some o) <-> all_set h.
Proof.
  split.
  - intros [o Ho] n Hn.
    assert (value_object h = None) by (apply value_object_None; eauto).
    congruence.
  - intros Hall. destruct (value_object h) as [o|] eqn:E; [eauto|].
    apply value_object_None in E. destruct E as [n Hn].
    now destruct (Hall n).
Qed.

Lemma gate_true (h : Handles) : gate h = true <-> all_set h.
Proof.
  rewrite <- value_object_Some. unfold gate.
  destruct (value_object h); split; intros H; eauto; try discriminate.
  destruct H; discriminate.
Qed.

(** The factory reads nothing but the ten dependencies. *)
Lemma value_object_deps (h h' : Handles) :
  map h value_deps_names = map h' value_deps_names ->
  value_object h = value_object h'.
Proof.
  cbn [map value_deps_names]. intros H.
  injection H as E1 E2 E3 E4 E5 E6 E7 E8 E9 E10.
  unfold value_object.
  rewrite E1, E2, E3, E4, E5, E6, E7, E8, E9, E10. reflexivity.
Qed.

Lemma memo_ok_mount : memo_ok mount.
Proof. split; exact I. Qed.

(** ** What a render pass computes *)

(** [useMemo] returns the cached value when the dependencies are the same
    and the value of the factory otherwise. *)
Lemma useMemo_cases {D V : Type} (same : D -> D -> bool)
      (Hsame : forall a b, same a b = true <-> a = b)
      (factory : nat -> V * nat) (deps : list D)
      (cell : option (list D * V)) (hp : nat) :
  (exists v, cell = Some (deps, v) /\
             useMemo same factory deps cell hp = (v, Some (deps, v), hp)) \/
  ((forall v, cell <> Some (deps, v)) /\
   useMemo same factory deps cell hp =
     (fst (factory hp), Some (deps, fst (factory hp)), snd (factory hp))).
Proof.
  unfold useMemo. destruct cell as [[prev v]|].
  - destruct (areHookInputsEqual same deps prev) eqn:E.
    + apply (areHookInputsEqual_eq same Hsame) in E. subst prev.
      left. exists v. auto.
    + right. split.
      * intros v0 H. injection H as -> ->.
        assert (areHookInputsEqual same deps deps = true)
          by now apply (areHookInputsEqual_eq same Hsame).
        congruence.
      * now destruct (factory hp).
  - right. split; [discriminate|]. now destruct (factory hp).
Qed.

Lemma FilamentScene_spec (props : FilamentProviderProps) (useEngine : Handle)
      (fb : Fiber) :
  memo_ok fb ->
  exists v rp hp, RenderSpec props useEngine fb v rp hp.
Proof.
  intros [Hv Hr].
  set (h := handles_of useEngine fb).
  set (f := frameRateOptions (viewProps props)).
  assert (Hvm : exists v hp1,
             useMemo Handle_same (value_factory h) (map h value_deps_names)
                     (value_memo fb) (heap fb)
             = (v, Some (map h value_deps_names, v), hp1) /\
             option_map ctx_props v = value_object h /\
             heap fb <= hp1 /\
             (forall c, v = Some c -> ctx_addr c < hp1) /\
             (forall v0, value_memo fb = Some (map h value_deps_names, v0) ->
                         v = v0) /\
             ((forall v0, value_memo fb <> Some (map h value_deps_names, v0)) ->
              forall c, v = Some c -> heap fb <= ctx_addr c)).
  { destruct (useMemo_cases Handle_same Handle_same_eq (value_factory h)
                (map h value_deps_names) (value_memo fb) (heap fb))
      as [[v [Hc Hu]]|[Hc Hu]].
    - exists v, (heap fb). rewrite Hc in Hv.
      destruct Hv as [[h0 [Hd Hp]] Ha].
      repeat split; auto.
      + rewrite Hp. symmetry. now apply value_object_deps.
      + intros v0 H0. congruence.
      + intros Hm. now destruct (Hm v).
    - exists (fst (value_factory h (heap fb))),
             (snd (value_factory h (heap fb))).
      unfold value_factory in *.
      destruct (value_object h) as [o|] eqn:Eo;
        cbn [fst snd option_map ctx_props] in *;
        repeat split; try assumption; try reflexivity; try lia;
        try (intros v0 H0; now destruct (Hc v0));
        try (intros c Hc'; (discriminate || (injection Hc' as <-; simpl; lia)));
        try (intros _ c Hc';
             (discriminate || (injection Hc' as <-; simpl; lia))). }
  destruct Hvm as (v & hp1 & Hu & Hval & Hhp & Haddr & Hhit & Hmiss).
  assert (Hrm : exists rp hp2,
             useMemo FrameRateOptions_same (rendererProps_factory f) [f]
                     (rendererProps_memo fb) hp1
             = (rp, Some ([f], rp), hp2) /\
             rp_frameRateOptions rp = f /\ hp1 <= hp2 /\ rp_addr rp < hp2 /\
             (forall rp0, rendererProps_memo fb = Some ([f], rp0) ->
                          rp = rp0) /\
             ((forall rp0, rendererProps_memo fb <> Some ([f], rp0)) ->
              heap fb <= rp_addr rp)).
  { destruct (useMemo_cases FrameRateOptions_same FrameRateOptions_same_eq
                (rendererProps_factory f) [f] (rendererProps_memo fb) hp1)
      as [[rp [Hc Hu']]|[Hc Hu']].
    - exists rp, hp1. rewrite Hc in Hr. destruct Hr as [Hd Ha].
      repeat split; auto; try lia.
      + congruence.
      + intros rp0 H0. congruence.
      + intros Hm. now destruct (Hm rp).
    - exists (fst (rendererProps_factory f hp1)),
             (snd (rendererProps_factory f hp1)).
      cbn [fst snd rendererProps_factory rp_addr rp_frameRateOptions] in *.
      repeat split; try assumption; try reflexivity; try lia.
      intros rp0 H0. now destruct (Hc rp0). }
  destruct Hrm as (rp & hp2 & Hu' & Hrp & Hhp' & Hra & Hrhit & Hrmiss).
  exists v, rp, hp2. constructor; auto; try lia.
  - unfold FilamentScene. fold h. fold f. rewrite Hu, Hu'.
    unfold ready_tree. reflexivity.
  - intros c Hc. specialize (Haddr c Hc). lia.
Qed.

(** The output of a render pass is decided by the factory applied to the
    current handles. *)
Lemma render_output (props : FilamentProviderProps) (useEngine : Handle)
      (fb : Fiber) :
  memo_ok fb ->
  match value_object (handles_of useEngine fb) with
  | None =>
      output (rendered props useEngine fb)
      = or_null (fallback (viewProps props))
  | Some o =>
      exists a rp,
        output (rendered props useEngine fb)
        = ready_tree props {| ctx_addr := a; ctx_props := o |} rp /\
        rp_frameRateOptions rp = frameRateOptions (viewProps props)
  end.
Proof.
  intros Hok.
  destruct (FilamentScene_spec props useEngine fb Hok) as (v & rp & hp & S).
  unfold rendered. rewrite (rs_eq _ _ _ _ _ _ S). cbn [fst output].
  rewrite <- (rs_value _ _ _ _ _ _ S).
  destruct v as [[a o]|]; cbn [option_map ctx_props].
  - exists a, rp. split; [reflexivity | apply (rs_rp _ _ _ _ _ _ S)].
  - reflexivity.
Qed.

Lemma published_or_null (e : option Element) : published (or_null e) = None.
Proof. now destruct e. Qed.

Lemma has_canvas_or_null (e : option Element) : has_canvas (or_null e) = false.
Proof. now destruct e. Qed.

(** ** The memo cells stay coherent *)

Lemma memo_ok_render (props : FilamentProviderProps) (useEngine : Handle)
      (fb : Fiber) :
  memo_ok fb -> memo_ok (snd (FilamentScene props useEngine fb)).
Proof.
  intros Hok.
  destruct (FilamentScene_spec props useEngine fb Hok) as (v & rp & hp & S).
  rewrite (rs_eq _ _ _ _ _ _ S). cbn [snd]. split; cbn.
  - split.
    + exists (handles_of useEngine fb). split; [reflexivity|].
      apply (rs_value _ _ _ _ _ _ S).
    + apply (rs_value_addr _ _ _ _ _ _ S).
  - split.
    + now rewrite (rs_rp _ _ _ _ _ _ S).
    + apply (rs_rp_addr _ _ _ _ _ _ S).
Qed.

Lemma same_memos_ok (fb fb' : Fiber) :
  same_memos fb fb' -> memo_ok fb -> memo_ok fb'.
Proof.
  intros (Hv & Hr & Hh). unfold memo_ok. now rewrite Hv, Hr, Hh.
Qed.

Lemma same_memos_trans (a b c : Fiber) :
  same_memos a b -> same_memos b c -> same_memos a c.
Proof.
  unfold same_memos. intros (H1 & H2 & H3) (H4 & H5 & H6).
  repeat split; congruence.
Qed.

Lemma commit_ref_memos (out : ReactNode) (fb : Fiber) :
  same_memos fb (commit_ref out fb).
Proof.
  unfold commit_ref, same_memos.
  destruct (has_canvas out); [destruct (canvasRef_current fb)|]; cbn; auto.
Qed.

Lemma commit_effects_memos (e : Handle) (fb : Fiber) :
  same_memos fb (commit_effects e fb).
Proof. unfold commit_effects, same_memos. cbn. auto. Qed.

Lemma settle_memos (r : Resource) (gen : nat) (o : Outcome) (fb : Fiber) :
  same_memos fb (settle r gen o fb).
Proof.
  unfold settle, same_memos.
  destruct (was_settled r gen (settled fb)); auto.
  destruct (issued r gen (log fb)); auto.
  destruct (result_of i o); cbn; auto.
  destruct (Nat.eqb gen (live (slot fb r))); cbn; auto.
Qed.

Lemma memo_ok_step (fb : Fiber) (ev : Event) :
  memo_ok fb -> memo_ok (step fb ev).
Proof.
  intros Hok. destruct ev as [props e|r gen o]; cbn [step].
  - unfold render_commit.
    pose proof (memo_ok_render props e fb Hok) as H.
    destruct (FilamentScene props e fb) as [rd fb1]. cbn [snd] in H.
    eapply same_memos_ok; [apply commit_effects_memos|].
    eapply same_memos_ok; [apply commit_ref_memos|]. exact H.
  - eapply same_memos_ok; [apply settle_memos|]. exact Hok.
Qed.

Lemma memo_ok_run_from (evs : list Event) (fb : Fiber) :
  memo_ok fb -> memo_ok (run evs fb).
Proof.
  revert fb. induction evs as [|ev evs IH]; intros fb Hok; cbn.
  - exact Hok.
  - apply IH. now apply memo_ok_step.
Qed.

(** Every state of a mounted component is coherent. *)
Lemma memo_ok_run (evs : list Event) : memo_ok (run evs mount).
Proof. apply memo_ok_run_from, memo_ok_mount. Qed.

(** ** The published context *)

(** With a handle unset the render takes the early return of line 137. *)
Lemma render_closed (props : FilamentProviderProps) (useEngine : Handle)
      (fb : Fiber) :
  memo_ok fb ->
  (exists n, handles_of useEngine fb n = None) ->
  output (rendered props useEngine fb) = or_null (fallback (viewProps props)).
Proof.
  intros Hok Hn. pose proof (render_output props useEngine fb Hok) as H.
  apply value_object_None in Hn. now rewrite Hn in H.
Qed.

Lemma gate_false (h : Handles) : gate h = false <-> exists n, h n = None.
Proof.
  rewrite <- value_object_None. unfold gate.
  destruct (value_object h); split; congruence.
Qed.

Lemma has_canvas_rendered (props : FilamentProviderProps) (useEngine : Handle)
      (fb : Fiber) :
  memo_ok fb ->
  has_canvas (output (rendered props useEngine fb))
  = gate (handles_of useEngine fb).
Proof.
  intros Hok. pose proof (render_output props useEngine fb Hok) as H.
  unfold gate. destruct (value_object (handles_of useEngine fb)) as [o|].
  - destruct H as (a & rp & H & _). now rewrite H.
  - rewrite H. apply has_canvas_or_null.
Qed.

(** The object literal stores each constant under its own name. *)
Lemma value_object_get (h : Handles) (o : list (string * Ref)) :
  value_object h = Some o ->
  map fst o
  = ["engine"; "transformManager"; "renderableManager"; "scene";
     "lightManager"; "view"; "camera"; "renderer"; "nameComponentManager";
     "workletContext"; "choreographer"] /\
  (forall n, own_property (property n) o = h n) /\
  own_property "workletContext" o = Some FilamentWorkletContext.
Proof.
  unfold value_object. intros Eo.
  repeat match type of Eo with
         | context [match h ?n with _ => _ end] =>
             destruct (h n) eqn:?; [ | discriminate ]
         end.
  injection Eo as <-. repeat split.
  intros [|[]]; cbn; symmetry; assumption.
Qed.

(** C1. In every coherent hook state and for every combination of the ten
    handles: if one of them is unset, the render publishes no context value
    and returns the fallback, or nothing when there is none. *)
Theorem no_partial_snapshot (props : FilamentProviderProps)
        (useEngine : Handle) (fb : Fiber) :
  memo_ok fb ->
  (exists n, handles_of useEngine fb n = None) ->
  published (output (rendered props useEngine fb)) = None /\
  output (rendered props useEngine fb) = or_null (fallback (viewProps props)).
Proof.
  intros Hok Hn. rewrite (render_closed props useEngine fb Hok Hn).
  split; [apply published_or_null | reflexivity].
Qed.

Lemma resolve_all_None (l : list (HandleName * Ref)) (h : Handles)
      (n : HandleName) :
  resolve_all l h n = None <-> ~ In n (map fst l) /\ h n = None.
Proof.
  unfold resolve_all. revert h.
  induction l as [|[m r] l IH]; intros h; cbn [fold_left map In fst].
  - tauto.
  - rewrite IH. unfold resolve. cbn [fst snd].
    destruct (HandleName_eqb m n) eqn:E.
    + apply HandleName_eqb_eq in E. subst m.
      split; [intros [_ H]; discriminate | intros [H _]; tauto].
    + assert (m <> n).
      { intros ->. assert (HandleName_eqb n n = true)
          by now apply HandleName_eqb_eq. congruence. }
      tauto.
Qed.

Lemma gate_ext (h h' : Handles) :
  (forall n, h n = None <-> h' n = None) -> gate h = gate h'.
Proof.
  intros H.
  assert (E : value_object h = None <-> value_object h' = None).
  { rewrite !value_object_None. split; intros [n Hn]; exists n; now apply H. }
  unfold gate.
  destruct (value_object h), (value_object h'); try reflexivity;
    destruct E as [E1 E2]; (now discriminate E1) || (now discriminate E2).
Qed.

(** C2. The gate of a render is open exactly when all ten handles are set,
    whatever the hook state; as a function of the handles it is open exactly
    when none is unset, it reads only whether each handle is set, and two
    orders in which the same handles settle end in the same gate value. *)
Theorem gate_pure_order_free (props : FilamentProviderProps)
        (useEngine : Handle) (fb : Fiber) (h h' : Handles)
        (l1 l2 : list (HandleName * Ref)) :
  memo_ok fb ->
  Permutation l1 l2 ->
  (published (output (rendered props useEngine fb)) <> None <->
   all_set (handles_of useEngine fb)) /\
  (gate h = true <-> all_set h) /\
  ((forall n, h n = None <-> h' n = None) -> gate h = gate h') /\
  gate (resolve_all l1 h) = gate (resolve_all l2 h).
Proof.
  intros Hok Hperm. repeat split.
  - intros Hp n Hn. apply Hp.
    rewrite (render_closed props useEngine fb Hok) by eauto.
    apply published_or_null.
  - intros Hall. pose proof (render_output props useEngine fb Hok) as H.
    apply value_object_Some in Hall. destruct Hall as [o Ho].
    rewrite Ho in H. destruct H as (a & rp & H & _). rewrite H.
    discriminate.
  - apply gate_true.
  - apply gate_true.
  - apply gate_ext.
  - apply gate_ext. intros n. rewrite !resolve_all_None.
    assert (In n (map fst l1) <-> In n (map fst l2)).
    { split; apply Permutation_in; [|symmetry]; now apply Permutation_map. }
    tauto.
Qed.

(** C3, as the code has it.  The [<canvas>], with the one ref object of the
    component, is in the output exactly when the gate is open; the output of
    a closed gate has no surface element, and it is empty when no fallback
    was passed. *)
Theorem canvas_only_when_ready (props : FilamentProviderProps)
        (useEngine : Handle) (fb : Fiber) :
  memo_ok fb ->
  has_canvas (output (rendered props useEngine fb))
  = gate (handles_of useEngine fb) /\
  (gate (handles_of useEngine fb) = true ->
   exists v rp,
     output (rendered props useEngine fb)
     = FilamentContext_Provider v
         [Configurator rp (viewProps props)
            [RenderContextProvider
               [canvas canvasRef; supplied (children props)]]]) /\
  (gate (handles_of useEngine fb) = false ->
   fallback (viewProps props) = None ->
   output (rendered props useEngine fb) = null).
Proof.
  intros Hok. pose proof (render_output props useEngine fb Hok) as H.
  unfold gate. destruct (value_object (handles_of useEngine fb)) as [o|].
  - destruct H as (a & rp & H & _). rewrite H. repeat split.
    + intros _. eexists _, _. reflexivity.
    + discriminate.
  - rewrite H. repeat split.
    + apply has_canvas_or_null.
    + discriminate.
    + intros _ ->. reflexivity.
Qed.

(** C4. While the gate is closed the output is the fallback the caller
    passed, or nothing; it does not depend on the children, and the children
    are not in it unless the caller passed them as the fallback. *)
Theorem closed_gate_output (props : FilamentProviderProps)
        (useEngine : Handle) (fb : Fiber) :
  memo_ok fb ->
  gate (handles_of useEngine fb) = false ->
  output (rendered props useEngine fb) = or_null (fallback (viewProps props)) /\
  (forall c,
      output (rendered {| children := c; viewProps := viewProps props |}
                       useEngine fb)
      = output (rendered props useEngine fb)) /\
  (fallback (viewProps props) <> Some (children props) ->
   has_supplied (children props) (output (rendered props useEngine fb))
   = false).
Proof.
  intros Hok Hg.
  assert (Hn : exists n, handles_of useEngine fb n = None)
    by now apply gate_false.
  pose proof (render_closed props useEngine fb Hok Hn) as H.
  repeat split.
  - exact H.
  - intros c.
    rewrite H, (render_closed {| children := c; viewProps := viewProps props |}
                              useEngine fb Hok Hn).
    reflexivity.
  - intros Hf. rewrite H. destruct (fallback (viewProps props)) as [e|];
      cbn; [|reflexivity].
    apply Nat.eqb_neq. congruence.
Qed.

(** C5. When all ten handles are set the render publishes one object whose
    own properties are the eleven names of the object literal, each of the
    ten holding the handle of its constant and [workletContext] holding
    [FilamentWorkletContext]; the render-callback provider and the canvas
    are mounted beneath the context provider. *)
Theorem ready_snapshot (props : FilamentProviderProps) (useEngine : Handle)
        (fb : Fiber) :
  memo_ok fb ->
  all_set (handles_of useEngine fb) ->
  exists v rp,
    output (rendered props useEngine fb)
    = FilamentContext_Provider v
        [Configurator rp (viewProps props)
           [RenderContextProvider
              [canvas canvasRef; supplied (children props)]]] /\
    published (output (rendered props useEngine fb)) = Some v /\
    map fst (ctx_props v)
    = ["engine"; "transformManager"; "renderableManager"; "scene";
       "lightManager"; "view"; "camera"; "renderer"; "nameComponentManager";
       "workletContext"; "choreographer"] /\
    (forall n, own_property (property n) (ctx_props v)
               = handles_of useEngine fb n) /\
    own_property "workletContext" (ctx_props v) = Some FilamentWorkletContext /\
    has_render_provider (output (rendered props useEngine fb)) = true /\
    has_canvas (output (rendered props useEngine fb)) = true.
Proof.
  intros Hok Hall. pose proof (render_output props useEngine fb Hok) as H.
  destruct (value_object (handles_of useEngine fb)) as [o|] eqn:Eo.
  - destruct H as (a & rp & H & _). rewrite H.
    exists {| ctx_addr := a; ctx_props := o |}, rp. cbn [ctx_props].
    destruct (value_object_get _ _ Eo) as (Hk & Hg & Hw).
    repeat split; assumption.
  - apply value_object_None in Eo. destruct Eo as [n Hn].
    now destruct (Hall n).
Qed.

(** ** Commits and settlements *)

Ltac open_render :=
  unfold render_commit, rendered, FilamentScene, commit_effects, commit_ref;
  destruct (useMemo Handle_same _ _ _ _) as [[? ?] ?];
  destruct (useMemo FrameRateOptions_same _ _ _ _) as [[? ?] ?];
  cbn [fst snd output useEngine_call].

(** The arguments of the [useEngine] call (line 59). *)
Lemma rendered_call (props : FilamentProviderProps) (useEngine : Handle)
      (fb : Fiber) :
  useEngine_call (rendered props useEngine fb)
  = {| canvas_prop := canvasRef_current fb;
       context_prop := FilamentWorkletContext |}.
Proof. open_render. reflexivity. Qed.

Lemma render_commit_canvas (props : FilamentProviderProps)
      (useEngine : Handle) (fb : Fiber) :
  canvasRef_current (render_commit props useEngine fb)
  = if has_canvas (output (rendered props useEngine fb))
    then Some (match canvasRef_current fb with
               | Some c => c
               | None => dom fb
               end)
    else None.
Proof.
  open_render.
  match goal with |- context [has_canvas ?t] => destruct (has_canvas t) end;
    [destruct (canvasRef_current fb)|]; reflexivity.
Qed.

Lemma render_commit_slot (props : FilamentProviderProps)
      (useEngine : Handle) (fb : Fiber) (r : Resource) :
  slot (render_commit props useEngine fb) r
  = if reruns useEngine fb r
    then reissued (effect_inputs (snd (call_site useEngine r))) (slot fb r)
    else slot fb r.
Proof.
  open_render.
  match goal with |- context [has_canvas ?t] => destruct (has_canvas t) end;
    [destruct (canvasRef_current fb)|]; reflexivity.
Qed.

Lemma render_commit_log (props : FilamentProviderProps)
      (useEngine : Handle) (fb : Fiber) :
  log (render_commit props useEngine fb)
  = log fb
    ++ flat_map (fun r => released r (slot fb r))
                (filter (reruns useEngine fb) all_resources)
    ++ map (fun r => Acquire r (S (live (slot fb r)))
                             (fst (call_site useEngine r)))
           (filter (reruns useEngine fb) all_resources).
Proof.
  open_render.
  match goal with |- context [has_canvas ?t] => destruct (has_canvas t) end;
    [destruct (canvasRef_current fb)|]; reflexivity.
Qed.

Lemma render_commit_memos (props : FilamentProviderProps)
      (useEngine : Handle) (fb : Fiber) :
  same_memos (snd (FilamentScene props useEngine fb))
             (render_commit props useEngine fb).
Proof.
  unfold render_commit. destruct (FilamentScene props useEngine fb) as [rd fb1].
  cbn [snd]. eapply same_memos_trans;
    [apply commit_ref_memos | apply commit_effects_memos].
Qed.

Lemma settle_canvas (r : Resource) (gen : nat) (o : Outcome) (fb : Fiber) :
  canvasRef_current (settle r gen o fb) = canvasRef_current fb.
Proof.
  unfold settle.
  destruct (was_settled r gen (settled fb)); auto.
  destruct (issued r gen (log fb)); auto.
  destruct (result_of i o); cbn; auto.
  destruct (Nat.eqb gen (live (slot fb r))); cbn; auto.
Qed.

(** A settlement changes at most the state of its own resource, and only to
    the value the then-callback received. *)
Lemma settle_slot (r : Resource) (gen : nat) (o : Outcome) (fb : Fiber)
      (r' : Resource) :
  effect_deps (slot (settle r gen o fb) r') = effect_deps (slot fb r') /\
  live (slot (settle r gen o fb) r') = live (slot fb r') /\
  (resource (slot (settle r gen o fb) r') = resource (slot fb r') \/
   r' = r /\ exists a, o = Resolved (Some a) /\
                       resource (slot (settle r gen o fb) r') = Some a).
Proof.
  unfold settle.
  destruct (was_settled r gen (settled fb)); auto.
  destruct (issued r gen (log fb)) as [init|]; auto.
  destruct (result_of init o) as [a|] eqn:Er; cbn; auto.
  destruct (Nat.eqb gen (live (slot fb r))); cbn; auto.
  unfold update. destruct (Resource_eqb r r') eqn:E; cbn; auto.
  apply Resource_eqb_eq in E. subst r'. repeat split; auto.
  right. split; [reflexivity|]. exists a. split; [|reflexivity].
  destruct o as [[x|]|]; cbn in Er; try discriminate;
    destruct init as [[e|]|c]; congruence.
Qed.

Lemma is_settle_inv (ev : Event) :
  is_settle ev -> exists r gen o, ev = Settle r gen o.
Proof. destruct ev; cbn; [tauto | eauto]. Qed.

(** Between two renders the canvas ref, the effects and the memo cells stay
    as the last commit left them. *)
Lemma settles_frame (ss : list Event) (fb : Fiber) :
  Forall is_settle ss ->
  canvasRef_current (run ss fb) = canvasRef_current fb /\
  same_memos fb (run ss fb) /\
  forall r, effect_deps (slot (run ss fb) r) = effect_deps (slot fb r) /\
            live (slot (run ss fb) r) = live (slot fb r).
Proof.
  intros H. revert fb. induction H as [|ev ss Hev _ IH]; intros fb.
  - cbn. repeat split.
  - destruct (is_settle_inv ev Hev) as (r & gen & o & ->). cbn [run fold_left].
    fold (run ss (step fb (Settle r gen o))). cbn [step].
    destruct (IH (settle r gen o fb)) as (Hc & Hm & Hs).
    split; [|split].
    + now rewrite Hc, settle_canvas.
    + eapply same_memos_trans; [apply settle_memos | apply Hm].
    + intros r'. destruct (Hs r') as [-> ->]. split; apply settle_slot.
Qed.

(** After a commit the live effects are those of the committed render. *)
Lemma committed_render_commit (props : FilamentProviderProps)
      (useEngine : Handle) (fb : Fiber) :
  committed useEngine (render_commit props useEngine fb).
Proof.
  intros r. rewrite render_commit_slot. unfold reruns, stale.
  destruct (effect_deps (slot fb r)) as [prev|] eqn:E; [|reflexivity].
  destruct (areHookInputsEqual Handle_same _ prev) eqn:Eq; cbn [negb];
    [|reflexivity].
  apply (areHookInputsEqual_eq Handle_same Handle_same_eq) in Eq.
  congruence.
Qed.

Lemma committed_settles (e : Handle) (ss : list Event) (fb : Fiber) :
  Forall is_settle ss -> committed e fb -> committed e (run ss fb).
Proof.
  intros Hs Hc r. destruct (settles_frame ss fb Hs) as (_ & _ & H).
  destruct (H r) as [-> _]. apply Hc.
Qed.

(** Which effects a commit re-runs once the component is mounted: those of
    the calls whose dependency list holds the engine, when it changed. *)
Lemma reruns_committed (old new : Handle) (fb : Fiber) (r : Resource) :
  committed old fb ->
  reruns new fb r
  = match r with
    | choreographer => false
    | _ => negb (Handle_same new old)
    end.
Proof.
  intros Hc. unfold reruns, stale. rewrite (Hc r).
  destruct r; cbn; try reflexivity; now rewrite andb_true_r.
Qed.

Lemma Handle_same_neq (a b : Handle) : a <> b -> Handle_same a b = false.
Proof.
  intros H. destruct (Handle_same a b) eqn:E; [|reflexivity].
  apply Handle_same_eq in E. contradiction.
Qed.

Lemma filter_reruns_changed (old new : Handle) (fb : Fiber) :
  committed old fb -> new <> old ->
  filter (reruns new fb) all_resources = engine_resources.
Proof.
  intros Hc Hne. unfold all_resources. cbn [filter].
  rewrite !(reruns_committed old new fb _ Hc).
  rewrite (Handle_same_neq _ _ Hne). reflexivity.
Qed.

(** ** The canvas argument of [useEngine] *)

(** C9, as the code has it.  The first render passes a null canvas to
    [useEngine], and so does every render that follows a render whose gate
    was closed; a render that follows a render whose gate was open passes
    the attached canvas, whatever its own gate. *)
Theorem canvas_argument (p0 p1 : FilamentProviderProps) (e0 e1 : Handle)
        (fb : Fiber) (ss : list Event) :
  memo_ok fb ->
  Forall is_settle ss ->
  canvas_prop (useEngine_call (rendered p0 e0 mount)) = None /\
  is_null (canvas_prop
             (useEngine_call
                (rendered p1 e1 (run ss (render_commit p0 e0 fb)))))
  = negb (gate (handles_of e0 fb)).
Proof.
  intros Hok Hs. rewrite !rendered_call. cbn [canvas_prop]. split.
  - reflexivity.
  - destruct (settles_frame ss (render_commit p0 e0 fb) Hs) as (-> & _).
    rewrite render_commit_canvas, has_canvas_rendered by assumption.
    now destruct (gate (handles_of e0 fb)).
Qed.

(** ** Re-acquisition *)

Lemma choreographer_mounted_reruns (e : Handle) (fb : Fiber) :
  choreographer_mounted fb -> reruns e fb choreographer = false.
Proof. intros H. unfold reruns, stale. now rewrite H. Qed.

Lemma choreographer_mounted_step (fb : Fiber) (ev : Event) :
  choreographer_mounted fb -> choreographer_mounted (step fb ev).
Proof.
  intros H. unfold choreographer_mounted. destruct ev as [p e|r gen o];
    cbn [step].
  - rewrite render_commit_slot, choreographer_mounted_reruns by assumption.
    exact H.
  - destruct (settle_slot r gen o fb choreographer) as [-> _]. exact H.
Qed.

Lemma choreographer_mounted_run (evs : list Event) (fb : Fiber) :
  choreographer_mounted fb -> choreographer_mounted (run evs fb).
Proof.
  revert fb. induction evs as [|ev evs IH]; intros fb H; cbn.
  - exact H.
  - apply IH. now apply choreographer_mounted_step.
Qed.

(** C10. The first commit issues the choreographer acquisition whatever
    [useEngine] returned; no later commit, whatever [useEngine] returns in
    it, touches the state of the choreographer call, releases its handle or
    issues another acquisition for it. *)
Theorem choreographer_independent (p0 p : FilamentProviderProps)
        (e0 e : Handle) (evs : list Event) :
  In (Acquire choreographer 1 (in_worklet FilamentWorkletContext))
     (log (render_commit p0 e0 mount)) /\
  slot (render_commit p e (run evs (render_commit p0 e0 mount))) choreographer
  = slot (run evs (render_commit p0 e0 mount)) choreographer /\
  exists added,
    log (render_commit p e (run evs (render_commit p0 e0 mount)))
    = log (run evs (render_commit p0 e0 mount)) ++ added /\
    Forall (fun x => effect_resource x <> choreographer) added.
Proof.
  assert (Hm : choreographer_mounted (run evs (render_commit p0 e0 mount))).
  { apply choreographer_mounted_run. unfold choreographer_mounted.
    now rewrite (committed_render_commit p0 e0 mount choreographer). }
  set (fb := run evs (render_commit p0 e0 mount)) in *.
  split; [|split].
  - rewrite render_commit_log. cbn. do 8 right. left.
    destruct e0; reflexivity.
  - rewrite render_commit_slot, choreographer_mounted_reruns by assumption.
    reflexivity.
  - rewrite render_commit_log. eexists. split; [reflexivity|].
    assert (Hf : forall r, In r (filter (reruns e fb) all_resources) ->
                           r <> choreographer).
    { intros r Hr ->. apply filter_In in Hr. destruct Hr as [_ Hr].
      rewrite choreographer_mounted_reruns in Hr by assumption.
      discriminate. }
    apply Forall_app. split; apply Forall_forall; intros x Hx.
    + apply in_flat_map in Hx. destruct Hx as (r & Hr & Hx).
      unfold released in Hx. destruct (resource (slot fb r)); cbn in Hx;
        [|contradiction].
      destruct Hx as [<-|[]]. cbn. now apply Hf.
    + apply in_map_iff in Hx. destruct Hx as (r & <- & Hr). cbn.
      now apply Hf.
Qed.

(** ** Identity of the snapshot *)

Lemma Handle_eq_dec (a b : Handle) : {a = b} + {a <> b}.
Proof. decide equality. apply Nat.eq_dec. Qed.

(** A committed render leaves its two values in the memo cells. *)
Lemma render_commit_cells (props : FilamentProviderProps)
      (useEngine : Handle) (fb : Fiber) :
  memo_ok fb ->
  exists v rp hp,
    RenderSpec props useEngine fb v rp hp /\
    value_memo (render_commit props useEngine fb)
    = Some (map (handles_of useEngine fb) value_deps_names, v) /\
    rendererProps_memo (render_commit props useEngine fb)
    = Some ([frameRateOptions (viewProps props)], rp) /\
    heap (render_commit props useEngine fb) = hp.
Proof.
  intros Hok.
  destruct (FilamentScene_spec props useEngine fb Hok) as (v & rp & hp & S).
  exists v, rp, hp. split; [exact S|].
  destruct (render_commit_memos props useEngine fb) as (Hv & Hr & Hh).
  rewrite Hv, Hr, Hh, (rs_eq _ _ _ _ _ _ S). cbn. auto.
Qed.

Lemma not_older_step (n0 : nat)
      (cell0 : option (list Handle * option FilamentContextType))
      (fb : Fiber) (ev : Event) :
  memo_ok fb -> not_older n0 cell0 fb -> not_older n0 cell0 (step fb ev).
Proof.
  intros Hok [Hn Hc]. destruct ev as [props e|r gen o]; cbn [step].
  - destruct (render_commit_cells props e fb Hok)
      as (v & rp & hp & S & Hv & _ & Hh).
    pose proof (rs_heap _ _ _ _ _ _ S) as Hle.
    split; [lia|]. rewrite Hv.
    set (deps := map (handles_of e fb) value_deps_names) in *.
    assert (Hcase : (exists v0, value_memo fb = Some (deps, v0)) \/
                    (forall v0, value_memo fb <> Some (deps, v0))).
    { destruct (value_memo fb) as [[prev v0]|]; [|right; discriminate].
      destruct (list_eq_dec Handle_eq_dec prev deps) as [->|Hne].
      - left. eauto.
      - right. intros v1 H1. congruence. }
    destruct Hcase as [[v0 H0]|Hmiss].
    + rewrite (rs_value_hit _ _ _ _ _ _ S v0 H0). rewrite <- H0.
      destruct Hc as [Hc|Hc]; [now left|right].
      intros d c Hd. now apply (Hc d c).
    + right. intros d c Hd. injection Hd as _ ->.
      pose proof (rs_value_miss _ _ _ _ _ _ S Hmiss c eq_refl). lia.
  - destruct (settle_memos r gen o fb) as (Hv & _ & Hh).
    unfold not_older. rewrite Hv, Hh. auto.
Qed.

Lemma not_older_run (n0 : nat)
      (cell0 : option (list Handle * option FilamentContextType))
      (evs : list Event) (fb : Fiber) :
  memo_ok fb -> not_older n0 cell0 fb -> not_older n0 cell0 (run evs fb).
Proof.
  revert fb. induction evs as [|ev evs IH]; intros fb Hok H; cbn.
  - exact H.
  - apply IH; [now apply memo_ok_step | now apply not_older_step].
Qed.

Lemma published_ready (props : FilamentProviderProps)
      (v : option FilamentContextType) (rp : RendererProps)
      (c : FilamentContextType) :
  published (match v with
             | None => or_null (fallback (viewProps props))
             | Some x => ready_tree props x rp
             end) = Some c ->
  v = Some c.
Proof.
  destruct v as [x|]; cbn.
  - congruence.
  - rewrite published_or_null. discriminate.
Qed.

(** ** Frame-rate options *)

Lemma configured_ready (props : FilamentProviderProps)
      (v : option FilamentContextType) (rp rp' : RendererProps)
      (vp : ViewProps) :
  configured (match v with
              | None => or_null (fallback (viewProps props))
              | Some x => ready_tree props x rp
              end) = Some (rp', vp) ->
  rp' = rp.
Proof.
  destruct v as [x|]; cbn.
  - congruence.
  - destruct (fallback (viewProps props)); discriminate.
Qed.

(** C7, as the code has it.  The context is published and [Configurator]
    has received [rp1].  The memo of [rendererProps] is keyed on the
    identity of [frameRateOptions], as [Object.is] compares it.
    In the next render, with the ten handles as they were, whatever the
    frame-rate options now are: the provider publishes the very same
    snapshot object and [Configurator] receives the new options.  In any
    next render with the frame-rate options as they were, whatever else
    changed, [Configurator] receives the object [rp1] itself. *)
Theorem frame_rate_change (p1 p2 p3 : FilamentProviderProps) (e e3 : Handle)
        (fb0 : Fiber) (ss : list Event) (v : FilamentContextType)
        (rp1 : RendererProps) (vp1 : ViewProps) :
  memo_ok fb0 ->
  Forall is_settle ss ->
  published (output (rendered p1 e fb0)) = Some v ->
  configured (output (rendered p1 e fb0)) = Some (rp1, vp1) ->
  (forall n, handles_of e (run ss (render_commit p1 e fb0)) n
             = handles_of e fb0 n) ->
  (exists rp2,
      output (rendered p2 e (run ss (render_commit p1 e fb0)))
      = FilamentContext_Provider v
          [Configurator rp2 (viewProps p2)
             [RenderContextProvider
                [canvas canvasRef; supplied (children p2)]]] /\
      rp_frameRateOptions rp2 = frameRateOptions (viewProps p2)) /\
  (forall rp3 vp3,
      frameRateOptions (viewProps p3) = frameRateOptions (viewProps p1) ->
      configured (output (rendered p3 e3 (run ss (render_commit p1 e fb0))))
      = Some (rp3, vp3) ->
      rp3 = rp1).
Proof.
  intros Hok Hs Hpub Hconf Hsame.
  destruct (render_commit_cells p1 e fb0 Hok)
    as (v1 & rp & hp & S & Hv & Hr & Hh).
  unfold rendered in Hpub, Hconf. rewrite (rs_eq _ _ _ _ _ _ S) in Hpub, Hconf.
  cbn [fst output] in Hpub, Hconf.
  apply configured_ready in Hconf. subst rp1.
  apply published_ready in Hpub. subst v1.
  set (fb := run ss (render_commit p1 e fb0)) in *.
  destruct (settles_frame ss (render_commit p1 e fb0) Hs)
    as (_ & (Hv' & Hr' & _) & _).
  fold fb in Hv', Hr'. rewrite Hv in Hv'. rewrite Hr in Hr'.
  assert (Hokf : memo_ok fb).
  { apply memo_ok_run_from. apply (memo_ok_step fb0 (Render p1 e) Hok). }
  split.
  - destruct (FilamentScene_spec p2 e fb Hokf) as (v2 & rp2 & hp2 & S2).
    assert (Hd : map (handles_of e fb) value_deps_names
                 = map (handles_of e fb0) value_deps_names)
      by (apply map_ext; intros n; apply Hsame).
    rewrite <- Hd in Hv'.
    pose proof (rs_value_hit _ _ _ _ _ _ S2 _ Hv') as ->.
    exists rp2. unfold rendered. rewrite (rs_eq _ _ _ _ _ _ S2).
    cbn [fst output]. split; [reflexivity | apply (rs_rp _ _ _ _ _ _ S2)].
  - intros rp3 vp3 Hf Hc3.
    destruct (FilamentScene_spec p3 e3 fb Hokf) as (v3 & rq & hp3 & S3).
    unfold rendered in Hc3. rewrite (rs_eq _ _ _ _ _ _ S3) in Hc3.
    cbn [fst output] in Hc3. apply configured_ready in Hc3. subst rp3.
    rewrite <- Hf in Hr'. apply (rs_rp_hit _ _ _ _ _ _ S3 _ Hr').
Qed.

(** ** Failed acquisitions *)





(** ** A render pass run twice *)

Lemma useMemo_shape {D V : Type} (same : D -> D -> bool)
      (Hsame : forall a b, same a b = true <-> a = b)
      (factory : nat -> V * nat) (deps : list D)
      (cell : option (list D * V)) (hp : nat) :
  exists v hp', useMemo same factory deps cell hp = (v, Some (deps, v), hp').
Proof.
  destruct (useMemo_cases same Hsame factory deps cell hp)
    as [[v [_ H]]|[_ H]]; eauto.
Qed.

Lemma useMemo_hit {D V : Type} (same : D -> D -> bool)
      (Hsame : forall a b, same a b = true <-> a = b)
      (factory : nat -> V * nat) (deps : list D) (v : V) (hp : nat) :
  useMemo same factory deps (Some (deps, v)) hp = (v, Some (deps, v), hp).
Proof.
  unfold useMemo.
  assert (E : areHookInputsEqual same deps deps = true)
    by now apply (areHookInputsEqual_eq same Hsame).
  now rewrite E.
Qed.

(** X1. Rendering again with the same props and the same engine, before
    anything else happens, returns the same tree with the same objects in
    it, calls [useEngine] with the same arguments and leaves the hook state
    as the first pass left it: the second pass allocates nothing. *)
Theorem render_idempotent (props : FilamentProviderProps)
        (useEngine : Handle) (fb : Fiber) :
  FilamentScene props useEngine (snd (FilamentScene props useEngine fb))
  = FilamentScene props useEngine fb.
Proof.
  unfold FilamentScene at 2 3.
  destruct (useMemo_shape Handle_same Handle_same_eq
              (value_factory (handles_of useEngine fb))
              (map (handles_of useEngine fb) value_deps_names)
              (value_memo fb) (heap fb)) as (v & hp1 & ->).
  destruct (useMemo_shape FrameRateOptions_same FrameRateOptions_same_eq
              (rendererProps_factory (frameRateOptions (viewProps props)))
              [frameRateOptions (viewProps props)]
              (rendererProps_memo fb) hp1) as (rp & hp2 & ->).
  cbn [snd]. unfold FilamentScene.
  cbn [canvasRef_current slot value_memo rendererProps_memo heap dom log
       settled].
  change (handles_of useEngine _) with (handles_of useEngine fb).
  rewrite (useMemo_hit Handle_same Handle_same_eq).
  rewrite (useMemo_hit FrameRateOptions_same FrameRateOptions_same_eq).
  reflexivity.
Qed.

(** ** Objects and their identity over a whole life *)

Lemma published_spec (props : FilamentProviderProps) (useEngine : Handle)
      (fb : Fiber) (v : FilamentContextType) :
  memo_ok fb ->
  published (output (rendered props useEngine fb)) = Some v ->
  exists rp hp, RenderSpec props useEngine fb (Some v) rp hp.
Proof.
  intros Hok Hp.
  destruct (FilamentScene_spec props useEngine fb Hok) as (v' & rp & hp & S).
  unfold rendered in Hp. rewrite (rs_eq _ _ _ _ _ _ S) in Hp.
  cbn [fst output] in Hp. apply published_ready in Hp. subst v'. eauto.
Qed.

Lemma configured_spec (props : FilamentProviderProps) (useEngine : Handle)
      (fb : Fiber) (rp : RendererProps) (vp : ViewProps) :
  memo_ok fb ->
  configured (output (rendered props useEngine fb)) = Some (rp, vp) ->
  vp = viewProps props /\
  exists v hp, RenderSpec props useEngine fb (Some v) rp hp.
Proof.
  intros Hok Hc.
  destruct (FilamentScene_spec props useEngine fb Hok) as (v & rp' & hp & S).
  unfold rendered in Hc. rewrite (rs_eq _ _ _ _ _ _ S) in Hc.
  cbn [fst output] in Hc. destruct v as [c|].
  - cbn in Hc. injection Hc as -> ->. eauto.
  - destruct (fallback (viewProps props)); discriminate.
Qed.

Lemma memo_ok_render_commit (props : FilamentProviderProps)
      (useEngine : Handle) (fb : Fiber) :
  memo_ok fb -> memo_ok (render_commit props useEngine fb).
Proof. apply (memo_ok_step fb (Render props useEngine)). Qed.

(** A snapshot published later in the life of the component is the object
    published before or one allocated after it. *)
Lemma published_later (p0 p1 : FilamentProviderProps) (e0 e1 : Handle)
      (fb0 : Fiber) (evs : list Event) (v0 v1 : FilamentContextType) :
  memo_ok fb0 ->
  published (output (rendered p0 e0 fb0)) = Some v0 ->
  published (output (rendered p1 e1 (run evs (render_commit p0 e0 fb0))))
  = Some v1 ->
  v1 = v0 \/ ctx_addr v0 < ctx_addr v1.
Proof.
  intros Hok H0 H1.
  destruct (render_commit_cells p0 e0 fb0 Hok)
    as (v & rp & hp & S & Hv & _ & Hh).
  unfold rendered in H0. rewrite (rs_eq _ _ _ _ _ _ S) in H0.
  cbn [fst output] in H0. apply published_ready in H0. subst v.
  pose proof (rs_value_addr _ _ _ _ _ _ S v0 eq_refl) as Hlt.
  set (fb1 := render_commit p0 e0 fb0) in *.
  assert (Hok1 : memo_ok fb1) by now apply memo_ok_render_commit.
  set (fbN := run evs fb1) in *.
  assert (HokN : memo_ok fbN) by now apply memo_ok_run_from.
  assert (Hold : not_older hp (value_memo fb1) fbN).
  { apply not_older_run; [assumption|]. split; [lia | now left]. }
  destruct (published_spec p1 e1 fbN v1 HokN H1) as (rp' & hp' & S').
  destruct Hold as [HnN Hcell].
  set (deps := map (handles_of e1 fbN) value_deps_names) in *.
  assert (Hcase : (exists x, value_memo fbN = Some (deps, x)) \/
                  (forall x, value_memo fbN <> Some (deps, x))).
  { destruct (value_memo fbN) as [[prev x]|]; [|right; discriminate].
    destruct (list_eq_dec Handle_eq_dec prev deps) as [->|Hd].
    - left. eauto.
    - right. intros y Hy. congruence. }
  destruct Hcase as [[x Hx]|Hmiss].
  - pose proof (rs_value_hit _ _ _ _ _ _ S' x Hx) as <-.
    destruct Hcell as [Hcell|Hcell].
    + left. rewrite Hv, Hx in Hcell. congruence.
    + right. specialize (Hcell deps v1 Hx). lia.
  - right. pose proof (rs_value_miss _ _ _ _ _ _ S' Hmiss v1 eq_refl). lia.
Qed.

(** X2. The identity of a snapshot decides what it holds, over any life of the
    component: a snapshot published later with the address of one published
    before is that very object, and the ten handles of the two renders are
    the same.  So a change of any one of the ten handles publishes an
    object that was never published before. *)
Theorem snapshot_identity (p0 p1 : FilamentProviderProps) (e0 e1 : Handle)
        (fb0 : Fiber) (evs : list Event) (v0 v1 : FilamentContextType) :
  memo_ok fb0 ->
  published (output (rendered p0 e0 fb0)) = Some v0 ->
  published (output (rendered p1 e1 (run evs (render_commit p0 e0 fb0))))
  = Some v1 ->
  ctx_addr v1 = ctx_addr v0 ->
  v1 = v0 /\
  forall n, handles_of e1 (run evs (render_commit p0 e0 fb0)) n
            = handles_of e0 fb0 n.
Proof.
  intros Hok H0 H1 Ha.
  destruct (published_later p0 p1 e0 e1 fb0 evs v0 v1 Hok H0 H1) as [->|Hlt];
    [|lia].
  split; [reflexivity|]. intros n.
  assert (HokN : memo_ok (run evs (render_commit p0 e0 fb0)))
    by now apply memo_ok_run_from, memo_ok_render_commit.
  destruct (published_spec p0 e0 fb0 v0 Hok H0) as (rp & hp & S).
  destruct (published_spec p1 e1 _ v0 HokN H1) as (rp' & hp' & S').
  pose proof (rs_value _ _ _ _ _ _ S) as Hv.
  pose proof (rs_value _ _ _ _ _ _ S') as Hv'.
  cbn [option_map] in Hv, Hv'. symmetry in Hv, Hv'.
  destruct (value_object_get _ _ Hv) as (_ & Hg & _).
  destruct (value_object_get _ _ Hv') as (_ & Hg' & _).
  now rewrite <- Hg, <- Hg'.
Qed.

Lemma rp_not_older_step (n0 : nat)
      (cell0 : option (list (option FrameRateOptions) * RendererProps))
      (fb : Fiber) (ev : Event) :
  memo_ok fb -> rp_not_older n0 cell0 fb -> rp_not_older n0 cell0 (step fb ev).
Proof.
  intros Hok [Hn Hc]. destruct ev as [props e|r gen o]; cbn [step].
  - destruct (render_commit_cells props e fb Hok)
      as (v & rp & hp & S & _ & Hr & Hh).
    pose proof (rs_heap _ _ _ _ _ _ S) as Hle.
    split; [lia|]. rewrite Hr.
    set (deps := [frameRateOptions (viewProps props)]) in *.
    assert (Hcase : (exists x, rendererProps_memo fb = Some (deps, x)) \/
                    (forall x, rendererProps_memo fb <> Some (deps, x))).
    { destruct (rendererProps_memo fb) as [[prev x]|]; [|right; discriminate].
      destruct (list_eq_dec Handle_eq_dec prev deps) as [->|Hne].
      - left. eauto.
      - right. intros y Hy. congruence. }
    destruct Hcase as [[x Hx]|Hmiss].
    + rewrite (rs_rp_hit _ _ _ _ _ _ S x Hx). rewrite <- Hx.
      destruct Hc as [Hc|Hc]; [now left|right].
      intros d c Hd. now apply (Hc d c).
    + right. intros d c Hd. injection Hd as _ ->.
      pose proof (rs_rp_miss _ _ _ _ _ _ S Hmiss). lia.
  - destruct (settle_memos r gen o fb) as (_ & Hr & Hh).
    unfold rp_not_older. rewrite Hr, Hh. auto.
Qed.

Lemma rp_not_older_run (n0 : nat)
      (cell0 : option (list (option FrameRateOptions) * RendererProps))
      (evs : list Event) (fb : Fiber) :
  memo_ok fb -> rp_not_older n0 cell0 fb -> rp_not_older n0 cell0 (run evs fb).
Proof.
  revert fb. induction evs as [|ev evs IH]; intros fb Hok H; cbn.
  - exact H.
  - apply IH; [now apply memo_ok_step | now apply rp_not_older_step].
Qed.

(** X3. The identity of the object [Configurator] receives as [rendererProps]
    decides the frame-rate options in it, over any life of the component:
    an object received later with the address of one received before is
    that very object, and the frame-rate options of the two renders are the
    same.  So once the caller changes the frame-rate options [Configurator]
    receives an object it never received before. *)
Theorem rendererProps_identity (p0 p1 : FilamentProviderProps)
        (e0 e1 : Handle) (fb0 : Fiber) (evs : list Event)
        (rp0 rp1 : RendererProps) (vp0 vp1 : ViewProps) :
  memo_ok fb0 ->
  configured (output (rendered p0 e0 fb0)) = Some (rp0, vp0) ->
  configured (output (rendered p1 e1 (run evs (render_commit p0 e0 fb0))))
  = Some (rp1, vp1) ->
  rp_addr rp1 = rp_addr rp0 ->
  rp1 = rp0 /\
  frameRateOptions (viewProps p1) = frameRateOptions (viewProps p0).
Proof.
  intros Hok H0 H1 Ha.
  destruct (configured_spec p0 e0 fb0 rp0 vp0 Hok H0) as (_ & v & hp & S).
  set (fb1 := render_commit p0 e0 fb0) in *.
  assert (Hok1 : memo_ok fb1) by now apply memo_ok_render_commit.
  set (fbN := run evs fb1) in *.
  assert (HokN : memo_ok fbN) by now apply memo_ok_run_from.
  destruct (configured_spec p1 e1 fbN rp1 vp1 HokN H1) as (_ & v' & hp' & S').
  destruct (render_commit_cells p0 e0 fb0 Hok)
    as (v2 & rp2 & hp2 & S2 & _ & Hr & Hh).
  assert (rp2 = rp0 /\ hp2 = hp) as [-> ->].
  { pose proof (rs_eq _ _ _ _ _ _ S) as E1.
    pose proof (rs_eq _ _ _ _ _ _ S2) as E2.
    rewrite E1 in E2. injection E2 as _ _ E3 E4. auto. }
  fold fb1 in Hr, Hh.
  pose proof (rs_rp_addr _ _ _ _ _ _ S) as Hlt.
  assert (Hold : rp_not_older hp (rendererProps_memo fb1) fbN).
  { apply rp_not_older_run; [assumption|]. split; [lia | now left]. }
  destruct Hold as [HnN Hcell].
  set (deps := [frameRateOptions (viewProps p1)]) in *.
  assert (Hcase : (exists x, rendererProps_memo fbN = Some (deps, x)) \/
                  (forall x, rendererProps_memo fbN <> Some (deps, x))).
  { destruct (rendererProps_memo fbN) as [[prev x]|]; [|right; discriminate].
    destruct (list_eq_dec Handle_eq_dec prev deps) as [->|Hd].
    - left. eauto.
    - right. intros y Hy. congruence. }
  assert (E : rp1 = rp0).
  { destruct Hcase as [[x Hx]|Hmiss].
    - pose proof (rs_rp_hit _ _ _ _ _ _ S' x Hx) as <-.
      destruct Hcell as [Hcell|Hcell].
      + rewrite Hr, Hx in Hcell. congruence.
      + specialize (Hcell deps rp1 Hx). lia.
    - pose proof (rs_rp_miss _ _ _ _ _ _ S' Hmiss). lia. }
  split; [exact E|].
  rewrite <- (rs_rp _ _ _ _ _ _ S), <- (rs_rp _ _ _ _ _ _ S'). now rewrite E.
Qed.

(** ** Children, fallback and what the collaborators receive *)

(** X4. The children are in the output exactly when the gate is open, and a
    fallback exactly when it is closed (the caller passing one element as
    both apart). *)
Theorem children_when_ready (props : FilamentProviderProps)
        (useEngine : Handle) (fb : Fiber) :
  memo_ok fb ->
  fallback (viewProps props) <> Some (children props) ->
  has_supplied (children props) (output (rendered props useEngine fb))
  = gate (handles_of useEngine fb) /\
  forall x, fallback (viewProps props) = Some x ->
            has_supplied x (output (rendered props useEngine fb))
            = negb (gate (handles_of useEngine fb)).
Proof.
  intros Hok Hne. pose proof (render_output props useEngine fb Hok) as H.
  unfold gate. destruct (value_object (handles_of useEngine fb)) as [o|].
  - destruct H as (a & rp & -> & _). unfold ready_tree. cbn. split.
    + now rewrite Nat.eqb_refl.
    + intros x Hx. rewrite !orb_false_r. apply Nat.eqb_neq. congruence.
  - rewrite H. split.
    + destruct (fallback (viewProps props)) as [x|]; cbn; [|reflexivity].
      apply Nat.eqb_neq. congruence.
    + intros x ->. cbn. apply Nat.eqb_refl.
Qed.

(** X5. In a ready render the collaborators receive data that agree:
    [Configurator] gets the props of this render without the children, the
    frame-rate options in its [rendererProps] are the ones in its
    [viewProps] even when the object comes from the memo, and the worklet
    context in the published snapshot is the one [useEngine] was called
    with. *)
Theorem collaborators_agree (props : FilamentProviderProps)
        (useEngine : Handle) (fb : Fiber) (v : FilamentContextType)
        (rp : RendererProps) (vp : ViewProps) :
  memo_ok fb ->
  published (output (rendered props useEngine fb)) = Some v ->
  configured (output (rendered props useEngine fb)) = Some (rp, vp) ->
  vp = viewProps props /\
  rp_frameRateOptions rp = frameRateOptions vp /\
  own_property "workletContext" (ctx_props v)
  = Some (context_prop (useEngine_call (rendered props useEngine fb))).
Proof.
  intros Hok Hp Hc.
  destruct (configured_spec props useEngine fb rp vp Hok Hc)
    as (-> & v' & hp & S).
  destruct (published_spec props useEngine fb v Hok Hp) as (rp' & hp' & S').
  split; [reflexivity|]. split; [apply (rs_rp _ _ _ _ _ _ S)|].
  rewrite rendered_call. cbn [context_prop].
  pose proof (rs_value _ _ _ _ _ _ S') as Hv. cbn [option_map] in Hv.
  symmetry in Hv. now destruct (value_object_get _ _ Hv) as (_ & _ & Hw).
Qed.

(** ** The DOM node behind the canvas ref *)

Lemma render_commit_dom (props : FilamentProviderProps) (useEngine : Handle)
      (fb : Fiber) :
  dom (render_commit props useEngine fb)
  = if has_canvas (output (rendered props useEngine fb))
    then match canvasRef_current fb with
         | Some _ => dom fb
         | None => S (dom fb)
         end
    else dom fb.
Proof.
  open_render.
  match goal with |- context [has_canvas ?t] => destruct (has_canvas t) end;
    [destruct (canvasRef_current fb)|]; reflexivity.
Qed.

Lemma settle_dom (r : Resource) (gen : nat) (o : Outcome) (fb : Fiber) :
  dom (settle r gen o fb) = dom fb.
Proof.
  unfold settle.
  destruct (was_settled r gen (settled fb)); auto.
  destruct (issued r gen (log fb)); auto.
  destruct (result_of i o); cbn; auto.
  destruct (Nat.eqb gen (live (slot fb r))); cbn; auto.
Qed.

Lemma settles_dom (ss : list Event) (fb : Fiber) :
  Forall is_settle ss -> dom (run ss fb) = dom fb.
Proof.
  intros H. revert fb. induction H as [|ev ss Hev _ IH]; intros fb.
  - reflexivity.
  - destruct (is_settle_inv ev Hev) as (r & gen & o & ->). cbn.
    fold (run ss (settle r gen o fb)). now rewrite IH, settle_dom.
Qed.

Lemma ref_ok_step (fb : Fiber) (ev : Event) :
  memo_ok fb -> ref_ok fb -> ref_ok (step fb ev).
Proof.
  intros Hok H c. destruct ev as [p e|r gen o]; cbn [step].
  - rewrite render_commit_canvas, render_commit_dom.
    destruct (has_canvas (output (rendered p e fb))); [|discriminate].
    destruct (canvasRef_current fb) as [c0|] eqn:E.
    + intros [= <-]. now apply H.
    + intros [= <-]. lia.
  - rewrite settle_canvas, settle_dom. apply H.
Qed.

(** Every state of a mounted component keeps [ref_ok]. *)
Lemma ref_ok_run (evs : list Event) : ref_ok (run evs mount).
Proof.
  assert (G : forall fb, memo_ok fb -> ref_ok fb -> ref_ok (run evs fb)).
  { induction evs as [|ev evs IH]; intros fb Hok H; cbn; [exact H|].
    apply IH; [now apply memo_ok_step | now apply ref_ok_step]. }
  apply G; [apply memo_ok_mount | intros c; discriminate].
Qed.

(** X6. While the gate stays open the canvas is not remounted: the render that
    follows a ready render calls [useEngine] with the same DOM node. *)
Theorem canvas_node_kept (p0 p1 : FilamentProviderProps) (e0 e1 : Handle)
        (fb : Fiber) (ss : list Event) (c : Ref) :
  memo_ok fb ->
  Forall is_settle ss ->
  canvas_prop (useEngine_call (rendered p0 e0 fb)) = Some c ->
  gate (handles_of e0 fb) = true ->
  canvas_prop
    (useEngine_call (rendered p1 e1 (run ss (render_commit p0 e0 fb))))
  = Some c.
Proof.
  intros Hok Hs Hc Hg. rewrite rendered_call in *. cbn [canvas_prop] in *.
  destruct (settles_frame ss (render_commit p0 e0 fb) Hs) as (-> & _).
  rewrite render_commit_canvas, has_canvas_rendered, Hg, Hc by assumption.
  reflexivity.
Qed.

(** X7. A closed gate unmounts the canvas: when a render with a closed gate is
    followed by a ready render, the render after that calls [useEngine]
    with a DOM node created later than the one it was called with before
    the gate closed. *)
Theorem canvas_node_replaced (p0 p1 p2 : FilamentProviderProps)
        (e0 e1 e2 : Handle) (fb : Fiber) (ss ss' : list Event) (c : Ref) :
  memo_ok fb ->
  ref_ok fb ->
  Forall is_settle ss ->
  Forall is_settle ss' ->
  canvas_prop (useEngine_call (rendered p0 e0 fb)) = Some c ->
  gate (handles_of e0 fb) = false ->
  gate (handles_of e1 (run ss (render_commit p0 e0 fb))) = true ->
  exists c',
    canvas_prop
      (useEngine_call
         (rendered p2 e2
            (run ss' (render_commit p1 e1
                        (run ss (render_commit p0 e0 fb))))))
    = Some c' /\
    c < c'.
Proof.
  intros Hok Href Hs Hs' Hc Hg0 Hg1.
  rewrite rendered_call in *. cbn [canvas_prop] in *.
  set (fb1 := run ss (render_commit p0 e0 fb)) in *.
  assert (Hok1 : memo_ok fb1)
    by now apply memo_ok_run_from, memo_ok_render_commit.
  assert (Hcur : canvasRef_current fb1 = None).
  { unfold fb1.
    destruct (settles_frame ss (render_commit p0 e0 fb) Hs) as (-> & _).
    now rewrite render_commit_canvas, has_canvas_rendered, Hg0. }
  assert (Hdom : dom fb1 = dom fb).
  { unfold fb1. rewrite settles_dom by assumption.
    now rewrite render_commit_dom, has_canvas_rendered, Hg0. }
  destruct (settles_frame ss' (render_commit p1 e1 fb1) Hs') as (-> & _).
  rewrite render_commit_canvas, has_canvas_rendered, Hg1, Hcur by assumption.
  exists (dom fb1). split; [reflexivity|]. rewrite Hdom. now apply Href.
Qed.

(** ** Where a handle comes from *)

Lemma issued_app (r : Resource) (g : nat) (l1 l2 : list Effect) :
  issued r g (l1 ++ l2)
  = match issued r g l1 with
    | Some i => Some i
    | None => issued r g l2
    end.
Proof.
  induction l1 as [|[r' g' i|r' a] l1 IH]; cbn; auto.
  now destruct (Resource_eqb r r' && Nat.eqb g g').
Qed.

Lemma issued_In (r : Resource) (g : nat) (l : list Effect)
      (init : Initialize) :
  issued r g l = Some init -> In (Acquire r g init) l.
Proof.
  induction l as [|[r' g' i|r' a] l IH]; cbn; try discriminate; auto.
  destruct (Resource_eqb r r' && Nat.eqb g g') eqn:E; auto.
  apply andb_true_iff in E. destruct E as [E1 E2].
  apply Resource_eqb_eq in E1. apply Nat.eqb_eq in E2. subst.
  intros [= ->]. now left.
Qed.

Lemma issued_None (r : Resource) (g : nat) (l : list Effect) :
  (forall init, ~ In (Acquire r g init) l) -> issued r g l = None.
Proof.
  intros H. destruct (issued r g l) as [i|] eqn:E; [|reflexivity].
  apply issued_In in E. now destruct (H i).
Qed.

Lemma In_releases (r : Resource) (g : nat) (init : Initialize)
      (s : Resource -> Slot) (l : list Resource) :
  ~ In (Acquire r g init) (flat_map (fun r' => released r' (s r')) l).
Proof.
  intros H. apply in_flat_map in H. destruct H as (r' & _ & H).
  unfold released in H. destruct (resource (s r')); cbn in H;
    [destruct H as [H|[]]; discriminate | contradiction].
Qed.

Lemma issued_acquires (r : Resource) (G : Resource -> nat)
      (I : Resource -> Initialize) (l : list Resource) :
  In r l ->
  issued r (G r) (map (fun r' => Acquire r' (G r') (I r')) l) = Some (I r).
Proof.
  induction l as [|r' l IH]; cbn; [contradiction|].
  destruct (Resource_eqb r r') eqn:E.
  - apply Resource_eqb_eq in E. subst r'. now rewrite Nat.eqb_refl.
  - cbn. intros [->|H]; [|auto].
    assert (Resource_eqb r r = true) by now apply Resource_eqb_eq.
    congruence.
Qed.

Lemma provenance_mount (r : Resource) : provenance mount r.
Proof. split; cbn; [contradiction | auto]. Qed.

Lemma provenance_render_commit (props : FilamentProviderProps)
      (e : Handle) (fb : Fiber) (r : Resource) :
  provenance fb r -> provenance (render_commit props e fb) r.
Proof.
  intros [Hle Hd]. unfold provenance.
  rewrite render_commit_log, render_commit_slot.
  set (todo := filter (reruns e fb) all_resources).
  set (rel := flat_map (fun r' => released r' (slot fb r')) todo).
  set (acq := map (fun r' => Acquire r' (S (live (slot fb r')))
                                     (fst (call_site e r'))) todo).
  assert (Hin : forall g init,
             In (Acquire r g init) (log fb ++ rel ++ acq) ->
             In (Acquire r g init) (log fb) \/
             (reruns e fb r = true /\ g = S (live (slot fb r)))).
  { intros g init H. apply in_app_or in H. destruct H as [H|H]; [now left|].
    apply in_app_or in H. destruct H as [H|H].
    - now apply In_releases in H.
    - right. apply in_map_iff in H. destruct H as (r' & [= -> <- _] & H).
      apply filter_In in H. tauto. }
  destruct (reruns e fb r) eqn:Er.
  - cbn [reissued resource effect_deps live]. split.
    + intros g init H. destruct (Hin g init H) as [H'|[_ ->]]; [|lia].
      specialize (Hle g init H'). lia.
    + exists e. split; [reflexivity|]. split; [|congruence].
      rewrite issued_app, issued_None.
      * rewrite issued_app, issued_None by (intros i; apply In_releases).
        apply (issued_acquires r (fun r' => S (live (slot fb r')))
                 (fun r' => fst (call_site e r'))).
        apply filter_In. split; [destruct r; cbn; tauto | exact Er].
      * intros i H. specialize (Hle _ _ H). lia.
  - split.
    + intros g init H. destruct (Hin g init H) as [H'|[H' _]];
        [exact (Hle g init H') | discriminate].
    + unfold reruns, stale in Er.
      destruct (effect_deps (slot fb r)) as [inputs|]; [|discriminate].
      destruct Hd as (e' & Hi & Hiss & Hres). exists e'.
      split; [exact Hi|]. split; [|exact Hres].
      now rewrite issued_app, Hiss.
Qed.

Lemma provenance_settle (r' : Resource) (gen : nat) (o : Outcome)
      (fb : Fiber) (r : Resource) :
  provenance fb r -> provenance (settle r' gen o fb) r.
Proof.
  intros [Hle Hd]. unfold settle.
  destruct (was_settled r' gen (settled fb)); [now split|].
  destruct (issued r' gen (log fb)) as [init|] eqn:Ei; [|now split].
  destruct (result_of init o) as [a|] eqn:Er; [|now split].
  destruct (Nat.eqb gen (live (slot fb r'))) eqn:Eg.
  - apply Nat.eqb_eq in Eg. subst gen. unfold provenance.
    cbn [with_slots with_settled slot log]. unfold update.
    destruct (Resource_eqb r' r) eqn:E.
    + apply Resource_eqb_eq in E. subst r'.
      cbn [resource effect_deps live]. split; [exact Hle|].
      destruct (effect_deps (slot fb r)) as [inputs|].
      * destruct Hd as (e & Hi & Hiss & _). exists e.
        split; [exact Hi|]. split; [exact Hiss|]. intros _.
        rewrite Hiss in Ei. injection Ei as <-.
        intros Hn. rewrite Hn in Er.
        destruct o as [x|]; cbn in Er; discriminate.
      * destruct Hd as [_ Hn]. rewrite Hn in Ei. discriminate.
    + now split.
  - unfold provenance. cbn [with_log with_settled slot log]. split.
    + intros g i H. apply in_app_or in H.
      destruct H as [H|[H|[]]]; [exact (Hle g i H) | discriminate].
    + destruct (effect_deps (slot fb r)) as [inputs|].
      * destruct Hd as (e & Hi & Hiss & Hres). exists e.
        split; [exact Hi|]. split; [|exact Hres].
        now rewrite issued_app, Hiss.
      * destruct Hd as [Hr Hn]. split; [exact Hr|]. intros g.
        now rewrite issued_app, Hn.
Qed.

Lemma provenance_run (evs : list Event) (fb : Fiber) (r : Resource) :
  provenance fb r -> provenance (run evs fb) r.
Proof.
  revert fb. induction evs as [|ev evs IH]; intros fb H; cbn; [exact H|].
  apply IH. destruct ev as [p e|r' gen o]; cbn [step].
  - now apply provenance_render_commit.
  - now apply provenance_settle.
Qed.

Lemma run_app (l1 l2 : list Event) (fb : Fiber) :
  run (l1 ++ l2) fb = run l2 (run l1 fb).
Proof. apply fold_left_app. Qed.

Lemma call_site_engine (e : Handle) (r : Resource) :
  In r engine_resources -> call_site e r = (from_engine e, Some [e]).
Proof.
  intros Hr. destruct r; cbn in Hr; try reflexivity. exfalso.
  intuition discriminate.
Qed.

Lemma settle_resource (r' : Resource) (gen : nat) (o : Outcome)
      (fb : Fiber) (r : Resource) (a : Ref) :
  resource (slot (settle r' gen o fb) r) = Some a ->
  resource (slot fb r) = Some a \/
  (r' = r /\ o = Resolved (Some a) /\ gen = live (slot fb r)).
Proof.
  unfold settle.
  destruct (was_settled r' gen (settled fb)); [now left|].
  destruct (issued r' gen (log fb)) as [init|]; [|now left].
  destruct (result_of init o) as [x|] eqn:Er; [|now left].
  destruct (Nat.eqb gen (live (slot fb r'))) eqn:Eg; [|now left].
  cbn [with_slots with_settled slot]. unfold update.
  destruct (Resource_eqb r' r) eqn:E; [|now left].
  apply Resource_eqb_eq in E. subst r'. apply Nat.eqb_eq in Eg.
  cbn [resource]. intros [= ->]. right. split; [reflexivity|].
  split; [|exact Eg].
  destruct o as [[y|]|]; cbn in Er; try discriminate;
    destruct init as [[e|]|c]; congruence.
Qed.

(** A handle a hook holds was handed over by a settlement of the
    acquisition that is live. *)
Lemma held_delivered (evs : list Event) (r : Resource) (a : Ref) :
  resource (slot (run evs mount) r) = Some a ->
  In (Settle r (live (slot (run evs mount) r)) (Resolved (Some a))) evs.
Proof.
  induction evs as [|ev evs IH] using rev_ind; [discriminate|].
  rewrite run_app. cbn [run fold_left]. fold (run evs mount).
  set (fb := run evs mount) in *. intros H. apply in_or_app.
  destruct ev as [p e|r' gen o]; cbn [step] in *.
  - rewrite render_commit_slot in *.
    destruct (reruns e fb r); [discriminate|]. left. now apply IH.
  - destruct (settle_slot r' gen o fb r) as (_ & -> & _).
    apply settle_resource in H. destruct H as [H|(-> & -> & ->)].
    + left. now apply IH.
    + right. now left.
Qed.

Lemma handle_provenance (evs : list Event) (r : Resource) (a : Ref) :
  In r engine_resources ->
  resource (slot (run evs mount) r) = Some a ->
  exists e,
    effect_deps (slot (run evs mount) r) = Some [Some e] /\
    In (Acquire r (live (slot (run evs mount) r)) (from_engine (Some e)))
       (log (run evs mount)) /\
    In (Settle r (live (slot (run evs mount) r)) (Resolved (Some a))) evs.
Proof.
  intros Hr Ha. pose proof (held_delivered evs r a Ha) as Hdel.
  destruct (provenance_run evs mount r (provenance_mount r)) as [Hle Hd].
  destruct (effect_deps (slot (run evs mount) r)) as [inputs|].
  - destruct Hd as (e & -> & Hiss & Hres).
    rewrite (call_site_engine e r Hr) in *.
    cbn [fst snd effect_inputs] in *.
    destruct e as [e|].
    + exists e. split; [reflexivity|]. split; [now apply issued_In|].
      exact Hdel.
    + exfalso. apply Hres; [congruence | reflexivity].
  - destruct Hd as [Hn _]. congruence.
Qed.


(** X10. With [useDisposableResource] as modelled above: in every snapshot a
    render publishes, each of the eight engine resource handles was handed
    over by the settlement of an acquisition issued with the engine of the
    last committed render, whatever engine this render sees.  So the render
    that first sees another engine while the context is published publishes
    the new engine together with handles acquired from the previous one. *)
Theorem snapshot_handles_of_committed_engine (evs ss : list Event)
        (p0 p1 : FilamentProviderProps) (e e' : Ref) (r : Resource)
        (v : FilamentContextType) :
  Forall is_settle ss ->
  In r engine_resources ->
  published
    (output (rendered p1 (Some e')
               (run ss (render_commit p0 (Some e) (run evs mount)))))
  = Some v ->
  own_property "engine" (ctx_props v) = Some e' /\
  exists a g,
    own_property (property r) (ctx_props v) = Some a /\
    In (Acquire r g (from_engine (Some e)))
       (log (run ss (render_commit p0 (Some e) (run evs mount)))) /\
    In (Settle r g (Resolved (Some a))) (evs ++ Render p0 (Some e) :: ss).
Proof.
  intros Hs Hr Hp.
  assert (Hrun : run (evs ++ Render p0 (Some e) :: ss) mount
                 = run ss (render_commit p0 (Some e) (run evs mount)))
    by (rewrite run_app; reflexivity).
  set (fb := run ss (render_commit p0 (Some e) (run evs mount))) in *.
  assert (Hok : memo_ok fb) by (rewrite <- Hrun; apply memo_ok_run).
  assert (Hc : committed (Some e) fb).
  { apply committed_settles; [assumption|]. apply committed_render_commit. }
  destruct (published_spec p1 (Some e') fb v Hok Hp) as (rp & hp & S).
  pose proof (rs_value _ _ _ _ _ _ S) as Hv. cbn [option_map] in Hv.
  symmetry in Hv. destruct (value_object_get _ _ Hv) as (_ & Hg & _).
  split; [apply (Hg engine)|].
  assert (Hall : all_set (handles_of (Some e') fb))
    by (apply value_object_Some; eauto).
  destruct (resource (slot fb r)) as [a|] eqn:Ea;
    [|now destruct (Hall (res r))].
  exists a, (live (slot fb r)).
  split; [rewrite (Hg (res r)); exact Ea|].
  rewrite <- Hrun in Ea.
  destruct (handle_provenance (evs ++ Render p0 (Some e) :: ss) r a Hr Ea)
    as (e0 & Hd & Hacq & Hdel).
  rewrite Hrun in Hd, Hacq, Hdel. rewrite (Hc r) in Hd.
  rewrite (call_site_engine (Some e) r Hr) in Hd.
  cbn [snd effect_inputs] in Hd. injection Hd as <-.
  split; assumption.
Qed.

(** ** When settling handles opens the gate *)

Lemma HandleName_eq_dec (a b : HandleName) : {a = b} + {a <> b}.
Proof. repeat decide equality. Qed.

(** X8. After the handles of a list have settled, in whatever order and
    however often, the gate is open exactly when every handle that was
    unset before is in the list; so settling handles never closes an open
    gate. *)
Theorem gate_after_resolving (l : list (HandleName * Ref)) (h : Handles) :
  (gate (resolve_all l h) = true <->
   forall n, In n (map fst l) \/ h n <> None) /\
  (gate h = true -> gate (resolve_all l h) = true).
Proof.
  assert (E : gate (resolve_all l h) = true <->
              forall n, In n (map fst l) \/ h n <> None).
  { rewrite gate_true. unfold all_set. split; intros H n.
    - specialize (H n). rewrite resolve_all_None in H.
      destruct (in_dec HandleName_eq_dec n (map fst l)) as [Hi|Hi];
        [now left|].
      right. intros Hn. apply H. now split.
    - rewrite resolve_all_None. intros [Hi Hn].
      destruct (H n) as [H'|H']; contradiction. }
  split; [exact E|].
  intros Hg. apply E. intros n. right. now apply gate_true.
Qed.

(** ** An engine change, from release to the next snapshot *)

Lemma render_commit_settled (props : FilamentProviderProps)
      (useEngine : Handle) (fb : Fiber) :
  settled (render_commit props useEngine fb) = settled fb.
Proof.
  open_render.
  match goal with |- context [has_canvas ?t] => destruct (has_canvas t) end;
    [destruct (canvasRef_current fb)|]; reflexivity.
Qed.

(** The then-callback of the live acquisition stores what it receives. *)
Lemma settle_stores (r : Resource) (gen : nat) (a : Ref) (fb : Fiber)
      (init : Initialize) :
  was_settled r gen (settled fb) = false ->
  issued r gen (log fb) = Some init ->
  init <> from_engine None ->
  gen = live (slot fb r) ->
  settle r gen (Resolved (Some a)) fb
  = with_slots
      (update (slot fb) r
         {| resource := Some a;
            effect_deps := effect_deps (slot fb r);
            live := live (slot fb r) |})
      (with_settled ((r, gen) :: settled fb) fb).
Proof.
  intros Hw Hi Hn ->. unfold settle. rewrite Hw, Hi.
  assert (E : result_of init (Resolved (Some a)) = Some a).
  { destruct init as [[e|]|c]; cbn; try reflexivity. now destruct Hn. }
  now rewrite E, Nat.eqb_refl.
Qed.

Lemma settle_settled (r' : Resource) (gen : nat) (o : Outcome) (fb : Fiber)
      (r : Resource) (g : nat) :
  was_settled r g (settled (settle r' gen o fb)) = true ->
  was_settled r g (settled fb) = true \/
  (r = r' /\ g = gen /\ exists init, issued r' gen (log fb) = Some init).
Proof.
  unfold settle.
  destruct (was_settled r' gen (settled fb)); [now left|].
  destruct (issued r' gen (log fb)) as [init|]; [|now left].
  assert (H : was_settled r g ((r', gen) :: settled fb) = true ->
              was_settled r g (settled fb) = true \/
              (r = r' /\ g = gen /\ exists i, Some init = Some i)).
  { cbn. intros H. apply orb_true_iff in H. destruct H as [H|H]; [|now left].
    apply andb_true_iff in H. destruct H as [H1 H2].
    apply Resource_eqb_eq in H1. apply Nat.eqb_eq in H2. right. eauto. }
  destruct (result_of init o); [|exact H].
  destruct (Nat.eqb gen (live (slot fb r'))); exact H.
Qed.

Lemma settled_ok_step (fb : Fiber) (ev : Event) :
  (forall r, provenance fb r) -> settled_ok fb -> settled_ok (step fb ev).
Proof.
  intros Hp Hs r g. destruct ev as [p e|r' gen o]; cbn [step].
  - rewrite render_commit_settled, render_commit_slot. intros H.
    specialize (Hs r g H). destruct (reruns e fb r); cbn; lia.
  - intros H. destruct (settle_slot r' gen o fb r) as (_ & -> & _).
    apply settle_settled in H. destruct H as [H|(-> & -> & init & Hi)].
    + now apply Hs.
    + apply issued_In in Hi. destruct (Hp r') as [Hle _].
      exact (Hle gen init Hi).
Qed.

Lemma reach_ok_from (evs : list Event) (fb : Fiber) :
  (forall r, provenance fb r) -> settled_ok fb ->
  (forall r, provenance (run evs fb) r) /\ settled_ok (run evs fb).
Proof.
  revert fb. induction evs as [|ev evs IH]; intros fb Hp Hs; cbn;
    [now split|].
  apply IH.
  - intros r. destruct ev as [p e|r' gen o]; cbn [step].
    + now apply provenance_render_commit.
    + now apply provenance_settle.
  - now apply settled_ok_step.
Qed.

(** Every state of a mounted component keeps both. *)
Lemma reach_ok (evs : list Event) :
  (forall r, provenance (run evs mount) r) /\ settled_ok (run evs mount).
Proof.
  apply reach_ok_from.
  - apply provenance_mount.
  - intros r g H. discriminate.
Qed.

(** Live acquisitions of different resources hand over their handles: each
    hook then holds its own, the others are as before. *)
Lemma resettle_run (a : Resource -> Ref) (G : Resource -> nat)
      (l : list Resource) :
  NoDup l ->
  forall fb,
    (forall r, In r l ->
               G r = live (slot fb r) /\
               was_settled r (G r) (settled fb) = false /\
               exists init, issued r (G r) (log fb) = Some init /\
                            init <> from_engine None) ->
    (forall r, In r l ->
               resource
                 (slot (run (map (fun r => Settle r (G r)
                                              (Resolved (Some (a r)))) l) fb)
                       r)
               = Some (a r)) /\
    (forall r, ~ In r l ->
               slot (run (map (fun r => Settle r (G r)
                                           (Resolved (Some (a r)))) l) fb) r
               = slot fb r).
Proof.
  induction 1 as [|r0 l Hnin Hnd IH]; intros fb H.
  - cbn. split; [contradiction | reflexivity].
  - cbn [map run fold_left step].
    destruct (H r0 (or_introl eq_refl)) as (Hg & Hw & init & Hi & Hn).
    rewrite (settle_stores r0 (G r0) (a r0) fb init Hw Hi Hn Hg).
    set (fb1 := with_slots _ _).
    fold (run (map (fun r => Settle r (G r) (Resolved (Some (a r)))) l) fb1).
    assert (Hne : forall r, r <> r0 -> slot fb1 r = slot fb r).
    { intros r Hr. unfold fb1. cbn. unfold update.
      destruct (Resource_eqb r0 r) eqn:E; [|reflexivity].
      apply Resource_eqb_eq in E. now destruct Hr. }
    destruct (IH fb1) as [IH1 IH2].
    { intros r Hr. assert (Hr0 : r <> r0) by (intros ->; contradiction).
      destruct (H r (or_intror Hr)) as (Hg' & Hw' & Hi').
      rewrite (Hne r Hr0). split; [exact Hg'|].
      unfold fb1. cbn [with_slots with_settled settled log].
      split; [|exact Hi']. unfold was_settled in *. cbn [existsb fst snd].
      rewrite Hw', orb_false_r.
      destruct (Resource_eqb r r0) eqn:E; [|reflexivity].
      apply Resource_eqb_eq in E. contradiction. }
    split.
    + intros r [<-|Hr]; [|now apply IH1].
      rewrite (IH2 r0 Hnin). unfold fb1. cbn. unfold update.
      assert (E : Resource_eqb r0 r0 = true) by now apply Resource_eqb_eq.
      now rewrite E.
    + intros r Hr. rewrite IH2 by (intros Hl; apply Hr; now right).
      apply Hne. intros ->. apply Hr. now left.
Qed.

Lemma engine_resources_NoDup : NoDup engine_resources.
Proof. repeat constructor; cbn; intuition discriminate. Qed.

(** C6, as the code has it.  The last commit saw the engine [old]; now
    [useEngine] returns [new], of another identity.  The commit of that
    render issues the eight engine acquisitions again, with the new engine;
    the handles the eight hooks held are released by then, while no
    replacement has arrived yet: their state is unset.  The choreographer
    call takes no part: its state stays, and the commit neither releases
    its handle nor issues an acquisition for it.  Once the eight
    acquisitions have handed over their handles, in any order, a render
    publishes a snapshot with the new engine and the new handles, and its
    identity is not that of a snapshot published with the engine [old]. *)
Theorem engine_change (evs0 ss : list Event)
        (p0 p1 p2 : FilamentProviderProps) (old new : Handle)
        (fb fb' : Fiber) (a : Resource -> Ref) (l : list Resource) :
  Forall is_settle ss ->
  fb = run ss (render_commit p0 old (run evs0 mount)) ->
  new <> old ->
  fb' = render_commit p1 new fb ->
  Permutation l engine_resources ->
  (forall r,
      In r engine_resources ->
      live (slot fb' r) = S (live (slot fb r)) /\
      In (Acquire r (live (slot fb' r)) (from_engine new)) (log fb') /\
      resource (slot fb' r) = None /\
      forall x, resource (slot fb r) = Some x -> In (Release r x) (log fb')) /\
  slot fb' choreographer = slot fb choreographer /\
  (forall x, In x (log fb') -> effect_resource x = choreographer ->
             In x (log fb)) /\
  (forall e' c,
      new = Some e' ->
      resource (slot fb choreographer) = Some c ->
      exists v_new,
        published (output (rendered p2 new (run (resettle a fb' l) fb')))
        = Some v_new /\
        own_property "engine" (ctx_props v_new) = Some e' /\
        (forall r, In r engine_resources ->
                   own_property (property r) (ctx_props v_new)
                   = Some (a r)) /\
        forall v_old,
          published (output (rendered p0 old (run evs0 mount))) = Some v_old ->
          ctx_addr v_new <> ctx_addr v_old).
Proof.
  intros Hs Hfb Hne Hfb' Hperm.
  set (fb0 := run evs0 mount) in *.
  set (fb1 := render_commit p0 old fb0) in *.
  assert (Hok0 : memo_ok fb0) by apply memo_ok_run.
  assert (Hok : memo_ok fb).
  { subst fb. now apply memo_ok_run_from, memo_ok_render_commit. }
  assert (Hc : committed old fb).
  { subst fb. apply committed_settles; [assumption|].
    apply committed_render_commit. }
  assert (Hreach : (forall r, provenance fb r) /\ settled_ok fb).
  { subst fb. destruct (reach_ok evs0) as [Hp Hso]. fold fb0 in Hp, Hso.
    apply reach_ok_from.
    - intros r. now apply provenance_render_commit.
    - now apply (settled_ok_step fb0 (Render p0 old)). }
  destruct Hreach as [Hprov Hsok].
  assert (Hlog : log fb'
                 = log fb
                   ++ flat_map (fun r => released r (slot fb r))
                               engine_resources
                   ++ map (fun r => Acquire r (S (live (slot fb r)))
                                            (fst (call_site new r)))
                          engine_resources).
  { subst fb'.
    now rewrite render_commit_log, (filter_reruns_changed old new fb Hc Hne). }
  assert (Hslot : forall r, In r engine_resources ->
                            slot fb' r = reissued [new] (slot fb r)).
  { intros r Hr. subst fb'.
    rewrite render_commit_slot, (reruns_committed old new fb r Hc).
    rewrite (Handle_same_neq _ _ Hne), (call_site_engine new r Hr).
    destruct r; cbn in Hr; try reflexivity. exfalso.
    intuition discriminate. }
  assert (Hch : slot fb' choreographer = slot fb choreographer).
  { subst fb'.
    now rewrite render_commit_slot,
      (reruns_committed old new fb choreographer Hc). }
  split; [|split; [exact Hch|split]].
  - intros r Hr. rewrite (Hslot r Hr). cbn [reissued live resource].
    split; [reflexivity|]. split; [|split; [reflexivity|]].
    + rewrite Hlog. apply in_or_app. right. apply in_or_app. right.
      apply in_map_iff. exists r. split; [|exact Hr].
      now rewrite (call_site_engine new r Hr).
    + intros x Hx. rewrite Hlog. apply in_or_app. right.
      apply in_or_app. left. apply in_flat_map. exists r.
      split; [exact Hr|]. unfold released. rewrite Hx. now left.
  - intros x Hx Hres. rewrite Hlog in Hx.
    apply in_app_or in Hx. destruct Hx as [Hx|Hx]; [exact Hx|].
    exfalso.
    assert (Hr : In (effect_resource x) engine_resources).
    { apply in_app_or in Hx. destruct Hx as [Hx|Hx].
      - apply in_flat_map in Hx. destruct Hx as (r & Hr & Hx).
        unfold released in Hx. destruct (resource (slot fb r));
          [destruct Hx as [<-|[]]; exact Hr | contradiction].
      - apply in_map_iff in Hx. destruct Hx as (r & <- & Hr). exact Hr. }
    rewrite Hres in Hr. cbn in Hr. intuition discriminate.
  - intros e' c -> Hc'.
    assert (Hok' : memo_ok fb')
      by (subst fb'; now apply memo_ok_render_commit).
    assert (Hprov' : forall r, provenance fb' r)
      by (intros r; subst fb'; now apply provenance_render_commit).
    assert (Hc'' : committed (Some e') fb')
      by (subst fb'; apply committed_render_commit).
    assert (Hnd : NoDup l).
    { apply (Permutation_NoDup (l := engine_resources));
        [now symmetry | apply engine_resources_NoDup]. }
    assert (Hin : forall r, In r l <-> In r engine_resources).
    { intros r. split; apply Permutation_in; [|symmetry]; assumption. }
    destruct (resettle_run a (fun r => live (slot fb' r)) l Hnd fb')
      as [Hset Hother].
    { intros r Hr. apply Hin in Hr. split; [reflexivity|]. split.
      - destruct (was_settled r (live (slot fb' r)) (settled fb')) eqn:E;
          [|reflexivity].
        exfalso. subst fb'. rewrite render_commit_settled in E.
        specialize (Hsok r _ E). rewrite (Hslot r Hr) in Hsok.
        cbn [reissued live] in Hsok. lia.
      - destruct (Hprov' r) as [_ Hd]. rewrite (Hc'' r) in Hd.
        destruct Hd as (e & Hi & Hiss & _).
        rewrite (call_site_engine (Some e') r Hr) in Hi.
        rewrite (call_site_engine e r Hr) in Hi, Hiss.
        cbn [fst snd effect_inputs] in Hi, Hiss. injection Hi as <-.
        exists (from_engine (Some e')). split; [exact Hiss | discriminate]. }
    fold (resettle a fb' l) in Hset, Hother.
    set (fbN := run (resettle a fb' l) fb') in *.
    assert (HokN : memo_ok fbN) by now apply memo_ok_run_from.
    assert (Hchor : resource (slot fbN choreographer) = Some c).
    { rewrite Hother, Hch; [exact Hc'|]. intros H. apply Hin in H.
      cbn in H. intuition discriminate. }
    assert (Hall : all_set (handles_of (Some e') fbN)).
    { intros [|r]; cbn [handles_of]; [discriminate|].
      destruct r;
        try (rewrite Hset; [discriminate | apply Hin; cbn; tauto]).
      rewrite Hchor. discriminate. }
    apply value_object_Some in Hall. destruct Hall as [o Ho].
    pose proof (render_output p2 (Some e') fbN HokN) as Hout.
    rewrite Ho in Hout. destruct Hout as (a0 & rp & Hout & _).
    destruct (value_object_get _ _ Ho) as (_ & Hg & _).
    exists {| ctx_addr := a0; ctx_props := o |}. cbn [ctx_props ctx_addr].
    assert (Hpub : published (output (rendered p2 (Some e') fbN))
                   = Some {| ctx_addr := a0; ctx_props := o |})
      by now rewrite Hout.
    split; [exact Hpub|]. split; [apply (Hg engine)|]. split.
    + intros r Hr. rewrite (Hg (res r)). cbn [handles_of].
      apply Hset. now apply Hin.
    + intros v_old Hold.
      assert (Hrun : fbN
                     = run (ss ++ Render p1 (Some e') :: resettle a fb' l)
                           (render_commit p0 old fb0)).
      { rewrite run_app. cbn [run fold_left step]. fold fb1.
        unfold fbN. rewrite Hfb', Hfb. reflexivity. }
      rewrite Hrun in Hpub.
      destruct (published_later p0 p2 old (Some e') fb0 _ v_old _
                  Hok0 Hold Hpub) as [E|Hlt]; [|cbn in Hlt; lia].
      exfalso. apply Hne.
      destruct (published_spec p0 old fb0 v_old Hok0 Hold)
        as (rp0 & hp0 & S0).
      pose proof (rs_value _ _ _ _ _ _ S0) as Hv0. cbn [option_map] in Hv0.
      symmetry in Hv0. destruct (value_object_get _ _ Hv0) as (_ & Hg0 & _).
      specialize (Hg0 engine). specialize (Hg engine).
      cbn [handles_of] in Hg0, Hg. rewrite <- E in Hg0. cbn [ctx_props] in Hg0.
      congruence.
Qed.

End Properties.

(** ** The theorems at work on the concrete life *)

#[local] Existing Instance demo_imports.

Lemma no_partial_snapshot_witness :
  published
    (output (rendered (demo_props None (Some 5)) (Some 100)
                      demo_partial)) = None /\
  output (rendered (demo_props None (Some 5)) (Some 100)
                   demo_partial) = supplied 5.
Proof.
  apply (no_partial_snapshot (demo_props None (Some 5))
                             (Some 100) demo_partial).
  - apply memo_ok_run.
  - exists (res scene). vm_compute; reflexivity.
Defined.

Lemma gate_pure_order_free_witness :
  gate (resolve_all [(engine, 100); (res scene, 12)]
                    (handles_of None demo_settled))
  = gate (resolve_all [(res scene, 12); (engine, 100)]
                      (handles_of None demo_settled)).
Proof.
  apply (gate_pure_order_free (demo_props None None) None
           demo_settled (handles_of None demo_settled)
           (handles_of None demo_settled)
           [(engine, 100); (res scene, 12)] [(res scene, 12); (engine, 100)]).
  - apply memo_ok_run.
  - apply perm_swap.
Defined.

(** On mount, with no fallback and every acquisition pending, the output
    is empty: it holds no canvas. *)
Lemma canvas_absent_on_mount :
  output (rendered (demo_props None None) None mount) = null /\
  has_canvas (output (rendered (demo_props None None) None mount))
  = false.
Proof. split; vm_compute; reflexivity. Qed.

Lemma canvas_only_when_ready_witness :
  has_canvas
    (output (rendered (demo_props None (Some 5)) (Some 100)
                      demo_settled))
  = gate (handles_of (Some 100) demo_settled).
Proof.
  apply (canvas_only_when_ready (demo_props None (Some 5))
                                (Some 100) demo_settled).
  apply memo_ok_run.
Defined.

Lemma closed_gate_output_witness :
  output (rendered (demo_props None (Some 5)) (Some 100)
                   demo_partial) = supplied 5.
Proof.
  apply (closed_gate_output (demo_props None (Some 5))
                            (Some 100) demo_partial).
  - apply memo_ok_run.
  - vm_compute; reflexivity.
Defined.

Lemma ready_snapshot_witness :
  exists v rp,
    output (rendered (demo_props None (Some 5)) (Some 100)
                     demo_settled)
    = FilamentContext_Provider v
        [Configurator rp (viewProps (demo_props None (Some 5)))
           [RenderContextProvider [canvas canvasRef; supplied 7]]] /\
    own_property "choreographer" (ctx_props v) = Some 50.
Proof.
  destruct (ready_snapshot (demo_props None (Some 5))
                           (Some 100) demo_settled)
    as (v & rp & Ho & _ & _ & Hg & _).
  - apply memo_ok_run.
  - intros [|[]]; vm_compute; discriminate.
  - exists v, rp. split; [exact Ho | exact (Hg (res choreographer))].
Defined.

(** The engine handle changes from 100 to 101 while the context is
    published: the commit issues no second choreographer acquisition and the
    choreographer handle stays. *)
Lemma choreographer_not_reissued :
  filter (fun x => Resource_eqb (effect_resource x) choreographer)
         (log (render_commit (demo_props None (Some 5))
                             (Some 101) demo_ready))
  = [Acquire choreographer 1 (in_worklet FilamentWorkletContext)] /\
  resource (slot (render_commit (demo_props None (Some 5))
                                (Some 101) demo_ready) choreographer)
  = Some 50.
Proof. split; vm_compute; reflexivity. Qed.

Lemma engine_change_witness :
  exists v_new,
    published
      (output
         (rendered (demo_props None None) (Some 101)
            (run (resettle demo_new_handles
                    (render_commit (demo_props None (Some 5)) (Some 101)
                       (run []
                            (render_commit (demo_props None (Some 5))
                               (Some 100)
                               (run (demo_mount ++ demo_settle) mount))))
                    (rev engine_resources))
                 (render_commit (demo_props None (Some 5)) (Some 101)
                    (run []
                         (render_commit (demo_props None (Some 5))
                            (Some 100)
                            (run (demo_mount ++ demo_settle) mount)))))))
    = Some v_new /\
    own_property (property scene) (ctx_props v_new) = Some 22 /\
    ctx_addr v_new <> ctx_addr demo_snapshot.
Proof.
  destruct (engine_change (demo_mount ++ demo_settle) []
              (demo_props None (Some 5)) (demo_props None (Some 5))
              (demo_props None None) (Some 100) (Some 101)
              (run []
                   (render_commit (demo_props None (Some 5)) (Some 100)
                      (run (demo_mount ++ demo_settle) mount)))
              (render_commit (demo_props None (Some 5)) (Some 101)
                 (run []
                      (render_commit (demo_props None (Some 5)) (Some 100)
                         (run (demo_mount ++ demo_settle) mount))))
              demo_new_handles (rev engine_resources))
    as (_ & _ & _ & H).
  - constructor.
  - exact eq_refl.
  - discriminate.
  - exact eq_refl.
  - symmetry. apply Permutation_rev.
  - destruct (H 101 50 eq_refl) as (v & Hp & _ & Hh & Hf).
    + vm_compute; reflexivity.
    + exists v. split; [exact Hp|]. split.
      * apply (Hh scene). vm_compute. tauto.
      * apply Hf. vm_compute; reflexivity.
Defined.

Lemma frame_rate_change_witness :
  exists rp2,
    output (rendered (demo_props (Some 60) (Some 5)) (Some 100)
                     demo_ready)
    = FilamentContext_Provider demo_snapshot
        [Configurator rp2 (viewProps (demo_props (Some 60) (Some 5)))
           [RenderContextProvider [canvas canvasRef; supplied 7]]] /\
    rp_frameRateOptions rp2 = Some 60.
Proof.
  refine (proj1 (frame_rate_change
                   (demo_props None (Some 5)) (demo_props (Some 60) (Some 5))
                   (demo_props None None) (Some 100) (Some 100)
                   demo_settled [] demo_snapshot
                   {| rp_addr := 0; rp_frameRateOptions := None |}
                   (viewProps (demo_props None (Some 5))) _ _ _ _ _)).
  - apply memo_ok_run.
  - constructor.
  - vm_compute; reflexivity.
  - vm_compute; reflexivity.
  - intros [|[]]; vm_compute; reflexivity.
Defined.



(** The caller passes [{ interval: 2 }] anew in the next render: equal by
    value, another object, and [Configurator] receives another
    [rendererProps] object. *)
Lemma equal_value_rebuilds :
  fro_interval demo_rate_a = fro_interval demo_rate_b /\
  option_map (fun c => rp_addr (fst c))
    (configured
       (output (rendered (demo_props (Some (fro_identity demo_rate_a))
                                     (Some 5))
                         (Some 100) demo_settled)))
  = Some 2 /\
  option_map (fun c => rp_addr (fst c))
    (configured
       (output (rendered (demo_props (Some (fro_identity demo_rate_b))
                                     (Some 5))
                         (Some 100)
                         (render_commit
                            (demo_props (Some (fro_identity demo_rate_a))
                                        (Some 5))
                            (Some 100) demo_settled))))
  = Some 3.
Proof. repeat split; vm_compute; reflexivity. Qed.

(** The canvas was mounted by a ready render.  In the next render the gate
    is closed, because [useEngine] returns nothing or because the handles
    were reset after the engine changed, and [useEngine] is called with the
    canvas that is still attached. *)
Lemma canvas_attached_while_closed :
  (gate (handles_of None demo_ready) = false /\
   canvas_prop
     (useEngine_call (rendered (demo_props None None) None demo_ready))
   = Some 0) /\
  (gate (handles_of (Some 101)
           (render_commit (demo_props None None) (Some 101) demo_ready))
   = false /\
   canvas_prop
     (useEngine_call
        (rendered (demo_props None None) (Some 101)
           (render_commit (demo_props None None) (Some 101) demo_ready)))
   = Some 0).
Proof. repeat split; vm_compute; reflexivity. Qed.

Lemma canvas_argument_witness :
  is_null
    (canvas_prop
       (useEngine_call
          (rendered (demo_props None None) (Some 100)
             (run [Settle scene 2 Rejected]
                  (render_commit (demo_props None None)
                                 (Some 100) demo_partial)))))
  = negb (gate (handles_of (Some 100) demo_partial)).
Proof.
  apply (canvas_argument (demo_props None None)
                         (demo_props None None) (Some 100) (Some 100)
                         demo_partial [Settle scene 2 Rejected]).
  - apply memo_ok_run.
  - repeat constructor.
Defined.

Lemma snapshot_identity_witness :
  handles_of (Some 100)
    (run [Settle scene 2 Rejected]
         (render_commit (demo_props None (Some 5)) (Some 100) demo_settled))
    scene
  = handles_of (Some 100) demo_settled scene.
Proof.
  apply (snapshot_identity
           (demo_props None (Some 5)) (demo_props (Some 60) None)
           (Some 100) (Some 100) demo_settled [Settle scene 2 Rejected]
           demo_snapshot demo_snapshot).
  - apply memo_ok_run.
  - vm_compute; reflexivity.
  - vm_compute; reflexivity.
  - reflexivity.
Defined.

Lemma rendererProps_identity_witness :
  frameRateOptions (viewProps (demo_props None None))
  = frameRateOptions (viewProps (demo_props None (Some 5))).
Proof.
  refine (proj2 (rendererProps_identity
                   (demo_props None (Some 5)) (demo_props None None)
                   (Some 100) (Some 100) demo_settled []
                   {| rp_addr := 0; rp_frameRateOptions := None |}
                   {| rp_addr := 0; rp_frameRateOptions := None |}
                   (viewProps (demo_props None (Some 5)))
                   (viewProps (demo_props None None)) _ _ _ _)).
  - apply memo_ok_run.
  - vm_compute; reflexivity.
  - vm_compute; reflexivity.
  - reflexivity.
Defined.

Lemma children_when_ready_witness :
  has_supplied 7
    (output (rendered (demo_props None (Some 5)) (Some 100) demo_settled))
  = gate (handles_of (Some 100) demo_settled).
Proof.
  refine (proj1 (children_when_ready (demo_props None (Some 5)) (Some 100)
                   demo_settled _ _)).
  - apply memo_ok_run.
  - discriminate.
Defined.

Lemma collaborators_agree_witness :
  own_property "workletContext" (ctx_props demo_snapshot)
  = Some
      (context_prop
         (useEngine_call
            (rendered (demo_props None (Some 5)) (Some 100) demo_settled))).
Proof.
  refine (proj2 (proj2 (collaborators_agree
                          (demo_props None (Some 5)) (Some 100) demo_settled
                          demo_snapshot
                          {| rp_addr := 0; rp_frameRateOptions := None |}
                          (viewProps (demo_props None (Some 5))) _ _ _))).
  - apply memo_ok_run.
  - vm_compute; reflexivity.
  - vm_compute; reflexivity.
Defined.

Lemma canvas_node_kept_witness :
  canvas_prop
    (useEngine_call
       (rendered (demo_props None None) None
          (run [Settle scene 2 Rejected]
               (render_commit (demo_props (Some 60) (Some 5)) (Some 100)
                              demo_ready))))
  = Some 0.
Proof.
  apply (canvas_node_kept (demo_props (Some 60) (Some 5))
           (demo_props None None) (Some 100) None demo_ready
           [Settle scene 2 Rejected] 0).
  - apply memo_ok_render_commit, memo_ok_run.
  - repeat constructor.
  - vm_compute; reflexivity.
  - vm_compute; reflexivity.
Defined.

Lemma canvas_node_replaced_witness :
  exists c',
    canvas_prop
      (useEngine_call
         (rendered (demo_props None None) (Some 101)
            (run []
                 (render_commit (demo_props None (Some 5)) (Some 101)
                    (run demo_settle_again
                         (render_commit (demo_props None (Some 5))
                                        (Some 101) demo_reset))))))
    = Some c' /\
    0 < c'.
Proof.
  apply (canvas_node_replaced (demo_props None (Some 5))
           (demo_props None (Some 5)) (demo_props None None)
           (Some 101) (Some 101) (Some 101) demo_reset
           demo_settle_again [] 0).
  - apply memo_ok_render_commit, memo_ok_render_commit, memo_ok_run.
  - intros c H. vm_compute in H. injection H as <-. vm_compute. lia.
  - repeat constructor.
  - constructor.
  - vm_compute; reflexivity.
  - vm_compute; reflexivity.
  - vm_compute; reflexivity.
Defined.


Lemma snapshot_handles_of_committed_engine_witness :
  exists a g,
    own_property (property scene) (ctx_props demo_mixed) = Some a /\
    In (Acquire scene g (from_engine (Some 100)))
       (log (run []
                 (render_commit (demo_props None (Some 5)) (Some 100)
                                (run (demo_mount ++ demo_settle) mount)))) /\
    In (Settle scene g (Resolved (Some a)))
       ((demo_mount ++ demo_settle)
        ++ Render (demo_props None (Some 5)) (Some 100) :: []).
Proof.
  destruct (snapshot_handles_of_committed_engine
              (demo_mount ++ demo_settle) []
              (demo_props None (Some 5)) (demo_props None None)
              100 101 scene demo_mixed)
    as (_ & H).
  - constructor.
  - vm_compute. tauto.
  - vm_compute; reflexivity.
  - exact H.
Defined.
